(** * payment_module: the STK-push payment orchestrator of [app.py]

    A shallow embedding of the class [PaymentModule]: its constant tables,
    its validators, the password builder, the token client, the failure
    policy and [initiate_payment], followed by the properties of the
    specification that concern them.

    Conventions of the embedding.
    - A Python [str] is a [string]; the character of code [c] stands for the
      code point U+00[c], so every [string] is a Python string. Strings with
      code points from U+0100 on are outside the embedding.
    - A Python [int] is a [Z].
    - [print] and the two HTTP requests are recorded, in order, in a trace of
      [event]s; what the network and the clock answer is an argument of the
      method that asks.
    - A method is a function of the instance: it returns what the call
      returns or raises, the instance after the call, and the trace. *)

From stdpp Require Import gmap strings list fin_maps pretty.
From Stdlib Require Import ZArith NArith Ascii String Lia.
From Stdlib Require Import Floats.SpecFloat Init.Byte.
From Stdlib Require Strings.Byte.

Open Scope Z_scope.

(** ** Values exchanged with the gateway *)

(** What [response.json()] can return: [JNull] is [None], a [JObj] is a
    [dict] in insertion order, a [JFloat] is a binary floating-point value. *)
#[local] Unset Elimination Schemes.
Inductive json : Type :=
| JNull
| JBool (b : bool)
| JInt (n : Z)
| JFloat (x : spec_float)
| JStr (s : string)
| JArr (items : list json)
| JObj (fields : list (string * json)).
#[local] Set Elimination Schemes.

(** [bool(v)], the test behind [if not v]: [None], [False], a zero, and an
    empty string, list or dict are false. *)
Definition truthy (v : json) : bool :=
  match v with
  | JNull => false
  | JBool b => b
  | JInt n => negb (n =? 0)
  | JFloat x => match x with S754_zero _ => false | _ => true end
  | JStr s => negb (String.eqb s "")
  | JArr items => match items with [] => false | _ => true end
  | JObj fields => match fields with [] => false | _ => true end
  end.

(** [d.get(key)] on the field list of a [dict]: the value, or [None]. *)
Fixpoint dict_get (fields : list (string * json)) (key : string) : json :=
  match fields with
  | [] => JNull
  | (k, v) :: rest => if String.eqb k key then v else dict_get rest key
  end.

(** [v != s] for a [str] literal [s]: only an equal [str] is equal to it. *)
Definition ne_str (v : json) (s : string) : bool :=
  match v with
  | JStr s' => negb (String.eqb s' s)
  | _ => true
  end.

(** ** Strings *)

Definition code (c : ascii) : N := N_of_ascii c.

(** [\d] on one code point below U+0100: the decimal digits there are 0-9.
    The decimal digits of other scripts, which [\d] matches too, start at
    U+0660 and are not characters of a [string]. *)
Definition is_decimal_digit (c : ascii) : bool :=
  ((48 <=? code c) && (code c <=? 57))%N.

(** [str.lower] on one code point below U+0100: A-Z, and the Latin-1
    capitals U+00C0-U+00DE without the multiplication sign U+00D7. *)
Definition lower_char (c : ascii) : ascii :=
  let n := code c in
  if (((65 <=? n) && (n <=? 90))
      || ((192 <=? n) && (n <=? 222) && negb (n =? 215)))%N
  then ascii_of_N (n + 32)
  else c.

Fixpoint lower (s : string) : string :=
  match s with
  | EmptyString => EmptyString
  | String c rest => String (lower_char c) (lower rest)
  end.

(** [str.upper] on one ASCII letter; the program upper-cases only the first
    letter of a tier name that is a key of the table, see [capitalize]. *)
Definition upper_ascii (c : ascii) : ascii :=
  let n := code c in
  if ((97 <=? n) && (n <=? 122))%N then ascii_of_N (n - 32) else c.

(** [str.capitalize]: first character upper-cased, the rest lower-cased.
    Exact when the first character is ASCII. *)
Definition capitalize (s : string) : string :=
  match s with
  | EmptyString => EmptyString
  | String c rest => String (upper_ascii c) (lower rest)
  end.

(** ** The pattern of [validate_phone_number]

    [re.compile(r"^2547\d{8}$")] is a sequence of items without choice or
    star, so matching it needs no backtracking. *)
Inductive re_item : Type :=
| Bol               (* ^  : only at the start of the string *)
| Eol               (* $  : at the end, or before a newline that ends it *)
| Lit (c : ascii)   (* the character itself *)
| Digit.            (* \d : a decimal digit *)

Definition newline : ascii := ascii_of_N 10.

Definition at_eol (s : string) : bool :=
  match s with
  | EmptyString => true
  | String c EmptyString => Ascii.eqb c newline
  | _ => false
  end.

(** [pattern.match(s)]: the items are matched from position [pos] on, and
    characters left over after the last item are allowed. *)
Fixpoint re_match (items : list re_item) (pos : nat) (s : string) : bool :=
  match items with
  | [] => true
  | Bol :: items' => Nat.eqb pos 0 && re_match items' pos s
  | Eol :: items' => at_eol s && re_match items' pos s
  | Lit c :: items' =>
      match s with
      | EmptyString => false
      | String c' s' => Ascii.eqb c' c && re_match items' (S pos) s'
      end
  | Digit :: items' =>
      match s with
      | EmptyString => false
      | String c' s' => is_decimal_digit c' && re_match items' (S pos) s'
      end
  end.

Definition phone_pattern : list re_item :=
  [Bol; Lit "2"; Lit "5"; Lit "4"; Lit "7"] ++ repeat Digit 8 ++ [Eol].

(** ** Class constants *)

Record tier : Type := { price : Z; limit : option Z }.

Definition SUBSCRIPTION_TIERS : gmap string tier :=
  <["starter" := {| price := 100; limit := Some 10 |}]>
  (<["pro" := {| price := 300; limit := Some 100 |}]>
  (<["enterprise" := {| price := 500; limit := None |}]> ∅)).

Definition MAX_BRANCHES_PER_ACTION : Z := 10.
Definition GRACE_PERIOD_DAYS : Z := 7.

(** ** Time

    A naive [datetime] is the number of microseconds since the first instant
    the type can hold: the order of two of them is the order of these
    numbers, and adding a [timedelta] adds its microseconds. The upper end of
    the type (year 9999) is not modelled. *)
Definition datetime : Type := Z.
Definition timedelta_days (days : Z) : Z := days * 86400000000.

(** ** The instance, its environment and its trace *)

Record PaymentModule : Type := {
  consumer_key : string;
  consumer_secret : string;
  shortcode : string;
  passkey : string;
  callback_url : string;
  token_url : string;
  stk_push_url : string;
  failed_payment_attempts : Z;
  grace_period_end : option datetime
}.

(** [PaymentModule(consumer_key, consumer_secret, shortcode, passkey,
    callback_url)] *)
Definition init (consumer_key consumer_secret shortcode passkey callback_url : string)
  : PaymentModule :=
  {| consumer_key := consumer_key;
     consumer_secret := consumer_secret;
     shortcode := shortcode;
     passkey := passkey;
     callback_url := callback_url;
     token_url := "https://sandbox.safaricom.co.ke/oauth/v1/generate?grant_type=client_credentials";
     stk_push_url := "https://sandbox.safaricom.co.ke/mpesa/stkpush/v1/processrequest";
     failed_payment_attempts := 0;
     grace_period_end := None |}.

(** The answer of the HTTP layer to one request. [Unreachable] is
    [requests.get] or [requests.post] raising a [RequestException]. In
    [Reply status body], [body = None] is a body that is not JSON:
    [response.json()] then raises [requests.exceptions.JSONDecodeError],
    which is a [RequestException] too. *)
Inductive http_reply : Type :=
| Unreachable
| Reply (status : Z) (body : option json).

(** Each [print] of the class, with the values it interpolates. *)
Inductive message : Type :=
| MsgNoAccessToken (full_response : json)
| MsgAccessTokenRetrieved (full_response : json)
| MsgErrorFetchingToken
| MsgInvalidPhone
| MsgTooManyBranches (cap : Z)
| MsgTierLimit (plan : string) (tier_limit : Z)
| MsgInvalidTier (subscription_tier : string)
| MsgTokenAborted
| MsgStkResponse (response_data : json)
| MsgPaymentInitiated
| MsgErrorInitiating
| MsgGraceStarted (days : Z)
| MsgRetryUntil (deadline : datetime)
| MsgSuspended.

Inductive event : Type :=
| Print (m : message)
| HttpGet (url : string) (auth : string * string)
| HttpPost (url : string) (bearer : json) (content_type : string)
           (payload : list (string * json)).

Inductive exn : Type :=
| KeyError (key : string)
| TypeError
| AttributeError
| UnicodeDecodeError.

Inductive result (A : Type) : Type :=
| Return (a : A)
| Raise (e : exn).
Arguments Return {A} a.
Arguments Raise {A} e.

(** A method body: from the instance to the result, the instance afterwards
    and the events in the order they happened. *)
Definition M (A : Type) : Type :=
  PaymentModule -> result A * PaymentModule * list event.

Definition result_of {A} (r : result A * PaymentModule * list event) : result A :=
  r.1.1.
Definition self_of {A} (r : result A * PaymentModule * list event) : PaymentModule :=
  r.1.2.
Definition trace_of {A} (r : result A * PaymentModule * list event) : list event :=
  r.2.

#[global] Instance M_ret : MRet M := fun A a self => (Return a, self, []).

#[global] Instance M_bind : MBind M := fun A B k c self =>
  match c self with
  | (Return a, self', t) =>
      match k a self' with
      | (r, self'', t') => (r, self'', t ++ t')
      end
  | (Raise e, self', t) => (Raise e, self', t)
  end.

Definition raise {A} (e : exn) : M A := fun self => (Raise e, self, []).
Definition emit (ev : event) : M unit := fun self => (Return tt, self, [ev]).
Definition print (m : message) : M unit := emit (Print m).
Definition get_self : M PaymentModule := fun self => (Return self, self, []).
Definition put_self (self' : PaymentModule) : M unit :=
  fun _ => (Return tt, self', []).

Definition set_failed_payment_attempts (n : Z) (self : PaymentModule) : PaymentModule :=
  {| consumer_key := consumer_key self;
     consumer_secret := consumer_secret self;
     shortcode := shortcode self;
     passkey := passkey self;
     callback_url := callback_url self;
     token_url := token_url self;
     stk_push_url := stk_push_url self;
     failed_payment_attempts := n;
     grace_period_end := grace_period_end self |}.

Definition set_grace_period_end (t : datetime) (self : PaymentModule) : PaymentModule :=
  {| consumer_key := consumer_key self;
     consumer_secret := consumer_secret self;
     shortcode := shortcode self;
     passkey := passkey self;
     callback_url := callback_url self;
     token_url := token_url self;
     stk_push_url := stk_push_url self;
     failed_payment_attempts := failed_payment_attempts self;
     grace_period_end := Some t |}.

(** ** Bytes: [str.encode], [bytes.decode] and the [base64] module *)

Definition byte_of_N (n : N) : byte :=
  match Byte.of_N n with
  | Some b => b
  | None => "000"%byte
  end.

(** [s.encode()]: UTF-8, one byte below U+0080 and two from there on. *)
Definition encode_char (c : ascii) : list byte :=
  let n := code c in
  if (n <? 128)%N then [byte_of_N n]
  else [byte_of_N (192 + n / 64); byte_of_N (128 + n mod 64)].

Fixpoint encode (s : string) : list byte :=
  match s with
  | EmptyString => []
  | String c rest => encode_char c ++ encode rest
  end.

(** [b.decode('utf-8')], as far as a [string] can hold the result: [None] is
    [UnicodeDecodeError], or a code point from U+0100 on. *)
Fixpoint decode (b : list byte) : option string :=
  match b with
  | [] => Some EmptyString
  | x :: b' =>
      let n := Byte.to_N x in
      if (n <? 128)%N then String (ascii_of_N n) <$> decode b'
      else if ((n =? 194) || (n =? 195))%N then
        match b' with
        | y :: b'' =>
            let m := Byte.to_N y in
            if ((128 <=? m) && (m <? 192))%N
            then String (ascii_of_N ((n - 192) * 64 + (m - 128))) <$> decode b''
            else None
        | [] => None
        end
      else None
  end.

(** [s.encode('ascii')], which [base64.b64decode] applies to a [str]
    argument: [None] is the [ValueError] for a character from U+0080 on. *)
Fixpoint encode_ascii (s : string) : option (list byte) :=
  match s with
  | EmptyString => Some []
  | String c rest =>
      if (code c <? 128)%N then cons (byte_of_N (code c)) <$> encode_ascii rest
      else None
  end.

Module base64.

Definition alphabet : list byte :=
  list_byte_of_string
    "ABCDEFGHIJKLMNOPQRSTUVWXYZabcdefghijklmnopqrstuvwxyz0123456789+/".

Definition pad : byte := "="%byte.

Definition char_of (sextet : N) : byte := nth (N.to_nat sextet) alphabet pad.

Fixpoint index_from (i : N) (l : list byte) (c : byte) : option N :=
  match l with
  | [] => None
  | x :: l' => if Byte.eqb x c then Some i else index_from (N.succ i) l' c
  end.

Definition value_of (c : byte) : option N := index_from 0 alphabet c.

(** The four sextets of three bytes: [a >> 2], [(a & 3) << 4 | b >> 4],
    [(b & 15) << 2 | c >> 6], [c & 63]. *)
Definition sextet0 (a : N) : N := (a / 4)%N.
Definition sextet1 (a b : N) : N := ((a mod 4) * 16 + b / 16)%N.
Definition sextet2 (b c : N) : N := ((b mod 16) * 4 + c / 64)%N.
Definition sextet3 (c : N) : N := (c mod 64)%N.

(** The three bytes of four sextets: [s0 << 2 | s1 >> 4],
    [(s1 & 15) << 4 | s2 >> 2], [(s2 & 3) << 6 | s3]. *)
Definition octet0 (s0 s1 : N) : N := (s0 * 4 + s1 / 16)%N.
Definition octet1 (s1 s2 : N) : N := ((s1 mod 16) * 16 + s2 / 4)%N.
Definition octet2 (s2 s3 : N) : N := ((s2 mod 4) * 64 + s3)%N.

(** [base64.b64encode(data)]: three bytes to four characters, the last
    group padded with [=]. *)
Fixpoint b64encode (data : list byte) : list byte :=
  match data with
  | [] => []
  | [a] =>
      let a := Byte.to_N a in
      [char_of (sextet0 a); char_of (sextet1 a 0); pad; pad]
  | [a; b] =>
      let a := Byte.to_N a in
      let b := Byte.to_N b in
      [char_of (sextet0 a); char_of (sextet1 a b); char_of (sextet2 b 0); pad]
  | a :: b :: c :: rest =>
      let a := Byte.to_N a in
      let b := Byte.to_N b in
      let c := Byte.to_N c in
      char_of (sextet0 a) :: char_of (sextet1 a b) :: char_of (sextet2 b c)
        :: char_of (sextet3 c) :: b64encode rest
  end.

(** [base64.b64decode] on bytes, for text made of whole groups of four
    alphabet characters with padding only in the last one, which is what
    the encoder writes; [None] for any other text. *)
Fixpoint b64decode (text : list byte) : option (list byte) :=
  match text with
  | [] => Some []
  | c0 :: c1 :: c2 :: c3 :: rest =>
      s0 ← value_of c0;
      s1 ← value_of c1;
      if Byte.eqb c3 pad && match rest with [] => true | _ => false end then
        if Byte.eqb c2 pad then Some [byte_of_N (octet0 s0 s1)]
        else
          s2 ← value_of c2;
          Some [byte_of_N (octet0 s0 s1); byte_of_N (octet1 s1 s2)]
      else
        s2 ← value_of c2;
        s3 ← value_of c3;
        tail ← b64decode rest;
        Some (byte_of_N (octet0 s0 s1) :: byte_of_N (octet1 s1 s2)
                :: byte_of_N (octet2 s2 s3) :: tail)
  | _ => None
  end.

End base64.

(** ** The methods of [PaymentModule] *)

(** [v.get(key)]: only a [dict] has the method. *)
Definition get_method (v : json) (key : string) : M json :=
  match v with
  | JObj fields => mret (dict_get fields key)
  | _ => raise AttributeError
  end.

(** [response.raise_for_status()] raises for 4xx and 5xx. *)
Definition is_http_error (status : Z) : bool :=
  (400 <=? status) && (status <? 600).

(** [reply] is the answer to the GET of the token URL. *)
Definition get_access_token (reply : http_reply) : M json :=
  self ← get_self;
  emit (HttpGet (token_url self) (consumer_key self, consumer_secret self));;
  match reply with
  | Unreachable => print MsgErrorFetchingToken;; mret JNull
  | Reply status body =>
      if is_http_error status then print MsgErrorFetchingToken;; mret JNull
      else
        match body with
        | None => print MsgErrorFetchingToken;; mret JNull
        | Some access_token_t =>
            access_token ← get_method access_token_t "access_token";
            (if negb (truthy access_token)
             then print (MsgNoAccessToken access_token_t)
             else print (MsgAccessTokenRetrieved access_token_t));;
            mret access_token
        end
  end.

Definition generate_password (timestamp : string) : M string :=
  self ← get_self;
  let data_to_encode := shortcode self +:+ passkey self +:+ timestamp in
  match decode (base64.b64encode (encode data_to_encode)) with
  | Some encoded_password => mret encoded_password
  | None => raise UnicodeDecodeError
  end.

Definition validate_phone_number (phone_number : string) : M bool :=
  if negb (re_match phone_pattern 0 phone_number)
  then print MsgInvalidPhone;; mret false
  else mret true.

Definition validate_branch_limit (subscription_tier : string) (num_branches : Z)
  : M bool :=
  if MAX_BRANCHES_PER_ACTION <? num_branches
  then print (MsgTooManyBranches MAX_BRANCHES_PER_ACTION);; mret false
  else
    match SUBSCRIPTION_TIERS !! subscription_tier with
    | None => raise (KeyError subscription_tier)
    | Some details =>
        match limit details with
        | Some tier_limit =>
            if tier_limit <? num_branches
            then print (MsgTierLimit (capitalize subscription_tier) tier_limit);;
                 mret false
            else mret true
        | None => mret true
        end
    end.

(** [now] is what [datetime.now()] returns in the branch that reads it. *)
Definition handle_payment_failure (now : datetime) : M unit :=
  self ← get_self;
  put_self (set_failed_payment_attempts (failed_payment_attempts self + 1) self);;
  self ← get_self;
  if failed_payment_attempts self =? 1 then
    put_self (set_grace_period_end (now + timedelta_days GRACE_PERIOD_DAYS) self);;
    print (MsgGraceStarted GRACE_PERIOD_DAYS)
  else
    match grace_period_end self with
    | None => raise TypeError
    | Some deadline =>
        if now <? deadline then print (MsgRetryUntil deadline)
        else print MsgSuspended
    end.

(** What the outside answers during one [initiate_payment], each field read
    at most once and in this order. *)
Record world : Type := {
  token_reply : http_reply;     (* the GET of [get_access_token] *)
  clock_stamp : string;         (* datetime.now().strftime('%Y%m%d%H%M%S') *)
  stk_reply : http_reply;       (* the POST of the push request *)
  clock_failure : datetime      (* datetime.now() in handle_payment_failure *)
}.

(** The [try] block that ends [initiate_payment]: the POST, the test of
    [ResponseCode], and the [except requests.RequestException] clause. *)
Definition stk_push (w : world) (access_token : json)
    (payload : list (string * json)) : M json :=
  self ← get_self;
  emit (HttpPost (stk_push_url self) access_token "application/json" payload);;
  match stk_reply w with
  | Reply _ (Some response_data) =>
      print (MsgStkResponse response_data);;
      response_code ← get_method response_data "ResponseCode";
      (if ne_str response_code "0"
       then handle_payment_failure (clock_failure w)
       else print MsgPaymentInitiated);;
      mret response_data
  | Unreachable | Reply _ None =>
      print MsgErrorInitiating;;
      handle_payment_failure (clock_failure w);;
      mret JNull
  end.

(** The [dict] sent as the JSON body of the push request. *)
Definition stk_payload (self : PaymentModule) (password timestamp : string)
    (total_amount : Z) (phone_number account_reference transaction_desc : string)
  : list (string * json) :=
  [("BusinessShortCode", JStr (shortcode self));
   ("Password", JStr password);
   ("Timestamp", JStr timestamp);
   ("TransactionType", JStr "CustomerBuyGoodsOnline");
   ("Amount", JInt total_amount);
   ("PartyA", JStr phone_number);
   ("PartyB", JStr (shortcode self));
   ("PhoneNumber", JStr phone_number);
   ("CallBackURL", JStr (callback_url self));
   ("AccountReference", JStr account_reference);
   ("TransactionDesc", JStr transaction_desc)].

(** [None] is returned as [JNull]. *)
Definition initiate_payment (w : world)
    (phone_number subscription_tier : string) (num_branches : Z) : M json :=
  valid ← validate_phone_number phone_number;
  if negb valid then mret JNull else
  valid ← validate_branch_limit subscription_tier num_branches;
  if negb valid then mret JNull else
  match SUBSCRIPTION_TIERS !! lower subscription_tier with
  | None => print (MsgInvalidTier subscription_tier);; mret JNull
  | Some tier_details =>
      let base_price := price tier_details in
      let additional_branch_fee := num_branches * 100 in
      let total_amount := base_price + additional_branch_fee in
      let account_reference := "Vendor_" +:+ phone_number in
      let transaction_desc :=
        capitalize subscription_tier +:+ " subscription with "
          +:+ pretty num_branches +:+ " branches" in
      access_token ← get_access_token (token_reply w);
      if negb (truthy access_token) then print MsgTokenAborted;; mret JNull else
      let timestamp := clock_stamp w in
      password ← generate_password timestamp;
      self ← get_self;
      let payload :=
        stk_payload self password timestamp total_amount phone_number
          account_reference transaction_desc in
      stk_push w access_token payload
  end.

(** ** Sequences of calls on one instance *)

(** A call of a method of the class, with what the outside answers to it. *)
Inductive call : Type :=
| CallGetAccessToken (reply : http_reply)
| CallGeneratePassword (timestamp : string)
| CallValidatePhoneNumber (phone_number : string)
| CallValidateBranchLimit (subscription_tier : string) (num_branches : Z)
| CallInitiatePayment (w : world) (phone_number subscription_tier : string)
                      (num_branches : Z)
| CallHandlePaymentFailure (now : datetime).

Definition raised_of {A} (r : result A * PaymentModule * list event) : option exn :=
  match result_of r with
  | Return _ => None
  | Raise e => Some e
  end.

(** The exception a call ends with, if any, and the instance after it. A
    call that raises leaves the instance as it was when the exception
    started. *)
Definition run_call (c : call) (self : PaymentModule) : option exn * PaymentModule :=
  match c with
  | CallGetAccessToken reply =>
      let r := get_access_token reply self in (raised_of r, self_of r)
  | CallGeneratePassword timestamp =>
      let r := generate_password timestamp self in (raised_of r, self_of r)
  | CallValidatePhoneNumber phone_number =>
      let r := validate_phone_number phone_number self in (raised_of r, self_of r)
  | CallValidateBranchLimit subscription_tier num_branches =>
      let r := validate_branch_limit subscription_tier num_branches self in
      (raised_of r, self_of r)
  | CallInitiatePayment w phone_number subscription_tier num_branches =>
      let r := initiate_payment w phone_number subscription_tier num_branches self in
      (raised_of r, self_of r)
  | CallHandlePaymentFailure now =>
      let r := handle_payment_failure now self in (raised_of r, self_of r)
  end.

Definition after_calls (calls : list call) (self : PaymentModule) : PaymentModule :=
  fold_left (fun s c => (run_call c s).2) calls self.

(** The payloads of the push requests sent during a call, oldest first. *)
Fixpoint pushed_payloads (t : list event) : list (list (string * json)) :=
  match t with
  | [] => []
  | HttpPost _ _ _ payload :: t' => payload :: pushed_payloads t'
  | _ :: t' => pushed_payloads t'
  end.

Definition is_push (ev : event) : bool :=
  match ev with
  | HttpPost _ _ _ _ => true
  | _ => false
  end.

(** The push request was sent during the call. *)
Definition push_issued (t : list event) : Prop := existsb is_push t = true.

(** The relation between the two fields that the failure policy maintains. *)
Definition grace_invariant (self : PaymentModule) : Prop :=
  0 <= failed_payment_attempts self
  /\ (is_Some (grace_period_end self) <-> 1 <= failed_payment_attempts self).

(** ** The callback endpoint of [c_back.py]

    The view function [callback] has no state: it maps the request to a
    response and prints on the way. *)

(** [d[key]] on the field list of a [dict]: [None] is the [KeyError]. *)
Fixpoint dict_find (fields : list (string * json)) (key : string) : option json :=
  match fields with
  | [] => None
  | (k, v) :: rest => if String.eqb k key then Some v else dict_find rest key
  end.

(** What [except Exception as e] binds: an exception of the body, or the
    HTTP error [request.get_json()] raises on a request it cannot parse. *)
Inductive caught : Type :=
| Caught (e : exn)
| GetJsonError.

(** Each [print] of [callback], with the values it interpolates;
    [LineResponse data] is [print(jsonify(data))]. *)
Inductive line : Type :=
| LineReceived
| LineResponse (data : json)
| LineSuccessful
| LineItem (name value : json)
| LineFailed (result_desc : json)
| LineError (e : caught).

(** The body of [jsonify(...)]: [{"message": text}] or [{"error": str(e)}];
    the text of [str(e)] is not rendered. *)
Inductive reply_body : Type :=
| MessageBody (text : string)
| ErrorBody (e : caught).

(** The statements of the [try] block: a result or an exception, and the
    lines printed so far. *)
Definition W (A : Type) : Type := result A * list line.

#[global] Instance W_ret : MRet W := fun A a => (Return a, []).

#[global] Instance W_bind : MBind W := fun A B k c =>
  match c with
  | (Return a, t) =>
      match k a with
      | (r, t') => (r, t ++ t')
      end
  | (Raise e, t) => (Raise e, t)
  end.

Definition throw {A} (e : exn) : W A := (Raise e, []).
Definition say (l : line) : W unit := (Return tt, [l]).

(** [v[key]] for a string key: a [dict] looks the key up, and nothing else
    that JSON gives can be indexed by a string. *)
Definition subscript (v : json) (key : string) : W json :=
  match v with
  | JObj fields =>
      match dict_find fields key with
      | Some x => mret x
      | None => throw (KeyError key)
      end
  | _ => throw TypeError
  end.

(** [v == 0]: an integer 0, [False], or a floating-point zero. *)
Definition eq_zero (v : json) : bool :=
  match v with
  | JInt n => n =? 0
  | JBool b => negb b
  | JFloat x => match x with S754_zero _ => true | _ => false end
  | _ => false
  end.

Fixpoint characters (s : string) : list json :=
  match s with
  | EmptyString => []
  | String c rest => JStr (String c EmptyString) :: characters rest
  end.

(** What [for item in v] goes through: the elements of a list, the keys of
    a [dict], the characters of a string; nothing else can be iterated. *)
Definition iterate (v : json) : W (list json) :=
  match v with
  | JArr items => mret items
  | JObj fields => mret (map (fun kv => JStr kv.1) fields)
  | JStr s => mret (characters s)
  | _ => throw TypeError
  end.

(** The body of the [for] loop, item by item. *)
Fixpoint print_items (items : list json) : W unit :=
  match items with
  | [] => mret tt
  | item :: rest =>
      name ← subscript item "Name";
      value ← subscript item "Value";
      say (LineItem name value);;
      print_items rest
  end.

(** The [try] block after [data = request.get_json()]. *)
Definition callback_body (data : json) : W unit :=
  say LineReceived;;
  say (LineResponse data);;
  body ← subscript data "Body";
  stk ← subscript body "stkCallback";
  result_code ← subscript stk "ResultCode";
  body ← subscript data "Body";
  stk ← subscript body "stkCallback";
  result_desc ← subscript stk "ResultDesc";
  if eq_zero result_code then
    say LineSuccessful;;
    body ← subscript data "Body";
    stk ← subscript body "stkCallback";
    callback_metadata ← subscript stk "CallbackMetadata";
    metadata ← subscript callback_metadata "Item";
    items ← iterate metadata;
    print_items items
  else
    say (LineFailed result_desc).

(** [request] is what [request.get_json()] gives: the parsed body, or
    [None] when it raises. The result is the body and status returned and
    the lines printed. *)
Definition callback (request : option json) : (reply_body * Z) * list line :=
  match request with
  | None => ((ErrorBody GetJsonError, 500), [LineError GetJsonError])
  | Some data =>
      match callback_body data with
      | (Return _, t) => ((MessageBody "Callback received successfully", 200), t)
      | (Raise e, t) => ((ErrorBody (Caught e), 500), t ++ [LineError (Caught e)])
      end
  end.

(** ** The requests in a trace *)

Inductive request_kind : Type := Get | Post.

Fixpoint requests_of (t : list event) : list request_kind :=
  match t with
  | [] => []
  | HttpGet _ _ :: t' => Get :: requests_of t'
  | HttpPost _ _ _ _ :: t' => Post :: requests_of t'
  | Print _ :: t' => requests_of t'
  end.

(** The payload of a callback: an object whose [Body] is an object whose
    [stkCallback] is the object with the fields [stk]. *)
Definition carries (data : json) (stk : list (string * json)) : Prop :=
  exists fields body,
    data = JObj fields
    /\ dict_find fields "Body" = Some (JObj body)
    /\ dict_find body "stkCallback" = Some (JObj stk).

(** A metadata item with both fields, and the line printed for it. *)
Definition item_line (item : json) (l : line) : Prop :=
  exists fields name value,
    item = JObj fields
    /\ dict_find fields "Name" = Some name
    /\ dict_find fields "Value" = Some value
    /\ l = LineItem name value.

(** The smallest payload that carries [stk], and a metadata item, for the
    examples. *)
Definition envelope (stk : list (string * json)) : json :=
  JObj [("Body", JObj [("stkCallback", JObj stk)])].

Definition metadata_item (name value : json) : json :=
  JObj [("Name", name); ("Value", value)].

(** ** Vocabulary of the statements *)

Definition is_ascii_byte (b : byte) : Prop := (Byte.to_N b < 128)%N.

Fixpoint all_digits (s : string) : bool :=
  match s with
  | EmptyString => true
  | String c rest => is_decimal_digit c && all_digits rest
  end.

(** The numbers the specification describes: [2547] and exactly eight more
    digits, twelve characters in all. *)
Definition spec_phone_number (s : string) : Prop :=
  exists d : string,
    String.length d = 8%nat /\ all_digits d = true /\ s = "2547" +:+ d.

(** The ways the specification lists for the acquisition to fail: no
    answer, a 4xx or 5xx status, a body that is not JSON, or a JSON object
    without the field. Each one makes [get_access_token] return [None]. *)
Inductive token_failure : http_reply -> Prop :=
| TokenUnreachable : token_failure Unreachable
| TokenHttpError status body :
    is_http_error status = true -> token_failure (Reply status body)
| TokenNotJson status : token_failure (Reply status None)
| TokenMissing status fields :
    dict_get fields "access_token" = JNull ->
    token_failure (Reply status (Some (JObj fields))).

(** The password [generate_password] builds. *)
Definition password_of (self : PaymentModule) (timestamp : string) : string :=
  string_of_list_byte
    (base64.b64encode (encode (shortcode self +:+ passkey self +:+ timestamp))).

(** The payload [initiate_payment] builds for a tier entry [d]. *)
Definition payload_of (self : PaymentModule) (w : world)
    (phone_number subscription_tier : string) (d : tier) (num_branches : Z)
  : list (string * json) :=
  stk_payload self (password_of self (clock_stamp w)) (clock_stamp w)
    (price d + num_branches * 100) phone_number
    ("Vendor_" +:+ phone_number)
    (capitalize subscription_tier +:+ " subscription with "
       +:+ pretty num_branches +:+ " branches").

(** The inputs with which both validations pass. *)
Definition passes_validation (phone_number subscription_tier : string)
    (d : tier) (num_branches : Z) : Prop :=
  re_match phone_pattern 0 phone_number = true
  /\ SUBSCRIPTION_TIERS !! subscription_tier = Some d
  /\ num_branches <= MAX_BRANCHES_PER_ACTION
  /\ (forall tier_limit, limit d = Some tier_limit -> num_branches <= tier_limit).

(** What every call preserves. *)
Definition call_preserves (self self' : PaymentModule) : Prop :=
  grace_invariant self'
  /\ failed_payment_attempts self <= failed_payment_attempts self'
  /\ (forall t, grace_period_end self = Some t -> grace_period_end self' = Some t).

(** * Properties *)

Ltac run_M :=
  cbv [mbind mret M_bind M_ret raise emit print get_self put_self
       result_of self_of trace_of raised_of fst snd] in *.

(** ** Traces *)

Lemma push_issued_app (t t' : list event) :
  push_issued (t ++ t') <-> push_issued t \/ push_issued t'.
Proof. unfold push_issued. now rewrite existsb_app, orb_true_iff. Qed.

Lemma push_issued_nil : ~ push_issued [].
Proof. discriminate. Qed.

Lemma push_issued_print (m : message) (t : list event) :
  push_issued (Print m :: t) <-> push_issued t.
Proof. reflexivity. Qed.

Lemma push_issued_get (url : string) (auth : string * string) (t : list event) :
  push_issued (HttpGet url auth :: t) <-> push_issued t.
Proof. reflexivity. Qed.

Lemma push_issued_post url bearer content_type payload (t : list event) :
  push_issued (HttpPost url bearer content_type payload :: t).
Proof. reflexivity. Qed.

Lemma pushed_payloads_app (t t' : list event) :
  pushed_payloads (t ++ t') = pushed_payloads t ++ pushed_payloads t'.
Proof.
  induction t as [|[m|url auth|url bearer ct payload] t IH]; cbn; congruence.
Qed.

Lemma pushed_payloads_none (t : list event) :
  ~ push_issued t -> pushed_payloads t = [].
Proof.
  unfold push_issued.
  induction t as [|[m|url auth|url bearer ct payload] t IH]; cbn; auto.
  intros H. now destruct H.
Qed.

Ltac no_push :=
  repeat first [rewrite push_issued_app | rewrite push_issued_print
               | rewrite push_issued_get];
  try tauto; try apply push_issued_nil;
  try (pose proof push_issued_nil; tauto).

(** ** The tier table *)

Lemma tier_keys (name : string) (d : tier) :
  SUBSCRIPTION_TIERS !! name = Some d ->
  (name = "starter" /\ d = {| price := 100; limit := Some 10 |})
  \/ (name = "pro" /\ d = {| price := 300; limit := Some 100 |})
  \/ (name = "enterprise" /\ d = {| price := 500; limit := None |}).
Proof.
  unfold SUBSCRIPTION_TIERS.
  rewrite !lookup_insert_Some, lookup_empty.
  intros [[<- <-]|[_ [[<- <-]|[_ [[<- <-]|[_ H]]]]]]; auto.
  discriminate H.
Qed.

Lemma tier_starter :
  SUBSCRIPTION_TIERS !! "starter" = Some {| price := 100; limit := Some 10 |}.
Proof. reflexivity. Qed.

Lemma tier_pro :
  SUBSCRIPTION_TIERS !! "pro" = Some {| price := 300; limit := Some 100 |}.
Proof. reflexivity. Qed.

Lemma tier_enterprise :
  SUBSCRIPTION_TIERS !! "enterprise" = Some {| price := 500; limit := None |}.
Proof. reflexivity. Qed.

(** A key of the table is already in lower case, so the second lookup of
    [initiate_payment] finds the same entry as the first. *)
Lemma tier_key_lower (name : string) (d : tier) :
  SUBSCRIPTION_TIERS !! name = Some d ->
  SUBSCRIPTION_TIERS !! lower name = Some d.
Proof.
  intros H. destruct (tier_keys _ _ H) as [[-> ->]|[[-> ->]|[-> ->]]];
    reflexivity.
Qed.

Lemma tier_price_positive (name : string) (d : tier) :
  SUBSCRIPTION_TIERS !! name = Some d -> 100 <= price d.
Proof.
  intros H. destruct (tier_keys _ _ H) as [[-> ->]|[[-> ->]|[-> ->]]];
    simpl; lia.
Qed.

(** ** Base64 and UTF-8 round trips *)

Lemma byte_of_to_N (b : byte) : byte_of_N (Byte.to_N b) = b.
Proof. unfold byte_of_N. now rewrite Byte.of_to_N. Qed.

Lemma to_N_byte_of_N (n : N) : (n < 256)%N -> Byte.to_N (byte_of_N n) = n.
Proof.
  intros H. unfold byte_of_N.
  destruct (Byte.of_N n) as [b|] eqn:E.
  - now apply Byte.to_of_N.
  - apply Byte.of_N_None_iff in E. lia.
Qed.

Lemma to_N_bounded (b : byte) : (Byte.to_N b < 256)%N.
Proof.
  pose proof (Byte.to_of_N_option_map (Byte.to_N b)) as H.
  rewrite Byte.of_to_N in H. simpl in H.
  destruct (Byte.to_N b <=? 255)%N eqn:E; [|discriminate].
  apply N.leb_le in E. lia.
Qed.

Lemma char_of_nat (n : nat) :
  (n < 64)%nat ->
  base64.value_of (nth n base64.alphabet base64.pad) = Some (N.of_nat n)
  /\ Byte.eqb (nth n base64.alphabet base64.pad) base64.pad = false
  /\ (Byte.to_N (nth n base64.alphabet base64.pad) < 128)%N.
Proof.
  intros H.
  do 64 (destruct n as [|n]; [vm_compute; auto|]).
  lia.
Qed.

Lemma value_of_char_of (s : N) :
  (s < 64)%N -> base64.value_of (base64.char_of s) = Some s.
Proof.
  intros H. unfold base64.char_of.
  destruct (char_of_nat (N.to_nat s)) as [E _]; [lia|].
  now rewrite E, N2Nat.id.
Qed.

Lemma char_of_not_pad (s : N) :
  (s < 64)%N -> Byte.eqb (base64.char_of s) base64.pad = false.
Proof.
  intros H. unfold base64.char_of.
  destruct (char_of_nat (N.to_nat s)) as [_ [E _]]; [lia|]. exact E.
Qed.

Lemma char_of_is_ascii (s : N) : (Byte.to_N (base64.char_of s) < 128)%N.
Proof.
  unfold base64.char_of.
  destruct (le_lt_dec 64 (N.to_nat s)) as [Hge|Hlt].
  - rewrite nth_overflow; [vm_compute; reflexivity | exact Hge].
  - now destruct (char_of_nat (N.to_nat s)) as [_ [_ E]].
Qed.

Ltac div_lia := zify; Z.to_euclidean_division_equations; lia.

Lemma sextet_bounds (a b c : N) :
  (a < 256)%N -> (b < 256)%N -> (c < 256)%N ->
  (base64.sextet0 a < 64 /\ base64.sextet1 a b < 64
   /\ base64.sextet2 b c < 64 /\ base64.sextet3 c < 64)%N.
Proof.
  unfold base64.sextet0, base64.sextet1, base64.sextet2, base64.sextet3.
  intros Ha Hb Hc. repeat split; div_lia.
Qed.

Lemma octet0_sextets (a b : N) :
  (a < 256)%N -> (b < 256)%N ->
  base64.octet0 (base64.sextet0 a) (base64.sextet1 a b) = a.
Proof.
  unfold base64.octet0, base64.sextet0, base64.sextet1. intros; div_lia.
Qed.

Lemma octet1_sextets (a b c : N) :
  (a < 256)%N -> (b < 256)%N -> (c < 256)%N ->
  base64.octet1 (base64.sextet1 a b) (base64.sextet2 b c) = b.
Proof.
  unfold base64.octet1, base64.sextet1, base64.sextet2. intros; div_lia.
Qed.

Lemma octet2_sextets (b c : N) :
  (b < 256)%N -> (c < 256)%N ->
  base64.octet2 (base64.sextet2 b c) (base64.sextet3 c) = c.
Proof.
  unfold base64.octet2, base64.sextet2, base64.sextet3. intros; div_lia.
Qed.

(** Induction on a list three elements at a time, as the encoder reads it. *)
Lemma list_triple_ind {A} (P : list A -> Prop) :
  P [] -> (forall a, P [a]) -> (forall a b, P [a; b]) ->
  (forall a b c l, P l -> P (a :: b :: c :: l)) ->
  forall l, P l.
Proof.
  intros H0 H1 H2 H3 l.
  assert (P l /\ (forall a, P (a :: l)) /\ (forall a b, P (a :: b :: l))) as [H _].
  { induction l as [|x l (IH0 & IH1 & IH2)]; auto. }
  exact H.
Qed.

Lemma b64decode_b64encode (data : list byte) :
  base64.b64decode (base64.b64encode data) = Some data.
Proof.
  induction data as [|a|a b|a b c rest IH] using list_triple_ind.
  - reflexivity.
  - pose proof (to_N_bounded a) as Ha.
    destruct (sextet_bounds (Byte.to_N a) 0 0) as (B0 & B1 & _); try lia.
    cbn [base64.b64encode base64.b64decode].
    rewrite !value_of_char_of by assumption. cbn.
    rewrite octet0_sextets by lia. now rewrite byte_of_to_N.
  - pose proof (to_N_bounded a) as Ha. pose proof (to_N_bounded b) as Hb.
    destruct (sextet_bounds (Byte.to_N a) (Byte.to_N b) 0) as (B0 & B1 & B2 & _);
      try lia.
    cbn [base64.b64encode base64.b64decode].
    rewrite !value_of_char_of by assumption. cbn [mbind option_bind].
    rewrite (char_of_not_pad _ B2).
    replace (Byte.eqb base64.pad base64.pad) with true by reflexivity.
    cbn [andb].
    rewrite octet0_sextets, octet1_sextets by lia. now rewrite !byte_of_to_N.
  - pose proof (to_N_bounded a) as Ha. pose proof (to_N_bounded b) as Hb.
    pose proof (to_N_bounded c) as Hc.
    destruct (sextet_bounds (Byte.to_N a) (Byte.to_N b) (Byte.to_N c))
      as (B0 & B1 & B2 & B3); try lia.
    cbn [base64.b64encode base64.b64decode].
    rewrite !value_of_char_of by assumption. cbn [mbind option_bind].
    rewrite (char_of_not_pad _ B3). cbn [andb].
    fold base64.b64decode. rewrite IH.
    rewrite octet0_sextets, octet1_sextets, octet2_sextets by lia.
    now rewrite !byte_of_to_N.
Qed.

Lemma code_ascii_of_byte (b : byte) : code (ascii_of_byte b) = Byte.to_N b.
Proof.
  unfold code. rewrite ascii_of_byte_via_N.
  apply N_ascii_embedding, to_N_bounded.
Qed.

Lemma decode_ascii_bytes (l : list byte) :
  Forall is_ascii_byte l -> decode l = Some (string_of_list_byte l).
Proof.
  induction 1 as [|b l Hb _ IH]; [reflexivity|].
  cbn [decode]. apply N.ltb_lt in Hb as Hb'. rewrite Hb', IH.
  cbn. now rewrite ascii_of_byte_via_N.
Qed.

Lemma encode_ascii_bytes (l : list byte) :
  Forall is_ascii_byte l -> encode_ascii (string_of_list_byte l) = Some l.
Proof.
  induction 1 as [|b l Hb _ IH]; [reflexivity|].
  change (string_of_list_byte (b :: l))
    with (String (ascii_of_byte b) (string_of_list_byte l)).
  cbn [encode_ascii]. rewrite code_ascii_of_byte.
  apply N.ltb_lt in Hb as Hb'. rewrite Hb', IH. cbn.
  now rewrite byte_of_to_N.
Qed.

Lemma b64encode_is_ascii (data : list byte) :
  Forall is_ascii_byte (base64.b64encode data).
Proof.
  assert (is_ascii_byte base64.pad) as Hpad by (vm_compute; reflexivity).
  induction data as [|a|a b|a b c rest IH] using list_triple_ind;
    cbn [base64.b64encode];
    repeat (apply Forall_cons; split; [first [exact Hpad | apply char_of_is_ascii]|]);
    auto.
Qed.

Lemma decode_encode (s : string) : decode (encode s) = Some s.
Proof.
  induction s as [|c s IH]; [reflexivity|].
  cbn [encode]. unfold encode_char.
  pose proof (N_ascii_bounded c) as Hc. fold (code c) in Hc.
  destruct (code c <? 128)%N eqn:E.
  - apply N.ltb_lt in E. cbn [app decode].
    rewrite to_N_byte_of_N by lia.
    apply N.ltb_lt in E as E'. rewrite E', IH. cbn.
    unfold code. now rewrite ascii_N_embedding.
  - apply N.ltb_ge in E.
    assert (192 + code c / 64 < 256)%N as H1 by div_lia.
    assert (128 + code c mod 64 < 256)%N as H2 by div_lia.
    cbn [app decode].
    rewrite (to_N_byte_of_N _ H1), (to_N_byte_of_N _ H2).
    replace (192 + code c / 64 <? 128)%N with false
      by (symmetry; apply N.ltb_ge; div_lia).
    replace ((192 + code c / 64 =? 194) || (192 + code c / 64 =? 195))%N
      with true
      by (symmetry; apply orb_true_iff; rewrite !N.eqb_eq; div_lia).
    replace ((128 <=? 128 + code c mod 64) && (128 + code c mod 64 <? 192))%N
      with true
      by (symmetry; apply andb_true_iff; rewrite N.leb_le, N.ltb_lt; div_lia).
    rewrite IH. cbn.
    replace ((192 + code c / 64 - 192) * 64 + (128 + code c mod 64 - 128))%N
      with (code c) by div_lia.
    unfold code. now rewrite ascii_N_embedding.
Qed.

(** ** [generate_password] *)

Lemma generate_password_returns (self : PaymentModule) (timestamp : string) :
  generate_password timestamp self
  = (Return (string_of_list_byte
               (base64.b64encode
                  (encode (shortcode self +:+ passkey self +:+ timestamp)))),
     self, []).
Proof.
  unfold generate_password. run_M.
  now rewrite (decode_ascii_bytes _ (b64encode_is_ascii _)).
Qed.

(** C9. For every instance (hence every shortcode and passkey) and every
    timestamp string, [generate_password] returns a password, changes
    nothing and prints nothing; decoding that password as base64 gives the
    bytes of shortcode, passkey and timestamp concatenated, which read as
    UTF-8 are that concatenation itself. Being a function of the instance
    and the timestamp, the password is the same on every call. *)
Theorem generate_password_round_trip (self : PaymentModule) (timestamp : string) :
  exists password : string,
    generate_password timestamp self = (Return password, self, [])
    /\ (encode_ascii password ≫= base64.b64decode)
       = Some (encode (shortcode self +:+ passkey self +:+ timestamp))
    /\ ((encode_ascii password ≫= base64.b64decode) ≫= decode)
       = Some (shortcode self +:+ passkey self +:+ timestamp).
Proof.
  eexists. split; [apply generate_password_returns|].
  rewrite (encode_ascii_bytes _ (b64encode_is_ascii _)). cbn [mbind option_bind].
  rewrite b64decode_b64encode. split; [reflexivity|].
  cbn [mbind option_bind]. apply decode_encode.
Qed.

(** ** [validate_phone_number] *)

Lemma append_empty_r (s : string) : s +:+ EmptyString = s.
Proof. induction s as [|c s IH]; [reflexivity|]. cbv [String.append]. fold String.append. now rewrite IH. Qed.

Lemma append_assoc (s1 s2 s3 : string) : (s1 +:+ s2) +:+ s3 = s1 +:+ (s2 +:+ s3).
Proof.
  induction s1 as [|c s1 IH]; [reflexivity|].
  change (String c ((s1 +:+ s2) +:+ s3) = String c (s1 +:+ (s2 +:+ s3))).
  now rewrite IH.
Qed.

Lemma length_append (s1 s2 : string) :
  String.length (s1 +:+ s2) = (String.length s1 + String.length s2)%nat.
Proof.
  induction s1 as [|c s1 IH]; [reflexivity|].
  change (S (String.length (s1 +:+ s2))
          = S (String.length s1 + String.length s2)).
  now rewrite IH.
Qed.

Lemma validate_phone_number_returns (phone_number : string) (self : PaymentModule) :
  validate_phone_number phone_number self
  = (Return (re_match phone_pattern 0 phone_number), self,
     if re_match phone_pattern 0 phone_number then [] else [Print MsgInvalidPhone]).
Proof.
  unfold validate_phone_number.
  destruct (re_match phone_pattern 0 phone_number); reflexivity.
Qed.

(** What the pattern accepts: the numbers of the specification, and the
    same numbers followed by one newline. *)
Lemma phone_pattern_accepts (s : string) :
  re_match phone_pattern 0 s = true
  <-> spec_phone_number s
      \/ exists s0, spec_phone_number s0 /\ s = s0 +:+ String newline EmptyString.
Proof.
  unfold spec_phone_number. split.
  - intros H. cbv [phone_pattern repeat app] in H.
    cbn [re_match Nat.eqb andb] in H.
    do 4 (destruct s as [|? s]; [discriminate H|];
          cbn [re_match] in H; apply andb_true_iff in H as [E H];
          apply Ascii.eqb_eq in E; subst).
    destruct s as [|d1 s]; [discriminate H|];
      cbn [re_match] in H; apply andb_true_iff in H as [D1 H].
    destruct s as [|d2 s]; [discriminate H|];
      cbn [re_match] in H; apply andb_true_iff in H as [D2 H].
    destruct s as [|d3 s]; [discriminate H|];
      cbn [re_match] in H; apply andb_true_iff in H as [D3 H].
    destruct s as [|d4 s]; [discriminate H|];
      cbn [re_match] in H; apply andb_true_iff in H as [D4 H].
    destruct s as [|d5 s]; [discriminate H|];
      cbn [re_match] in H; apply andb_true_iff in H as [D5 H].
    destruct s as [|d6 s]; [discriminate H|];
      cbn [re_match] in H; apply andb_true_iff in H as [D6 H].
    destruct s as [|d7 s]; [discriminate H|];
      cbn [re_match] in H; apply andb_true_iff in H as [D7 H].
    destruct s as [|d8 s]; [discriminate H|];
      cbn [re_match] in H; apply andb_true_iff in H as [D8 H].
    cbn [re_match] in H. apply andb_true_iff in H as [H _].
    set (d := String d1 (String d2 (String d3 (String d4 (String d5
                (String d6 (String d7 (String d8 EmptyString)))))))).
    assert (all_digits d = true) as HD.
    { cbn [d all_digits]. now rewrite D1, D2, D3, D4, D5, D6, D7, D8. }
    destruct s as [|c [|c' s]]; cbn [at_eol] in H; [| |discriminate H].
    + left. exists d. split; [reflexivity|]. split; [exact HD|reflexivity].
    + right. apply Ascii.eqb_eq in H. subst c.
      exists ("2547" +:+ d). split; [|reflexivity].
      exists d. split; [reflexivity|]. split; [exact HD|reflexivity].
  - assert (forall d, String.length d = 8%nat -> all_digits d = true ->
              forall tail, at_eol tail = true ->
              re_match phone_pattern 0 ("2547" +:+ d +:+ tail) = true) as Hok.
    { intros d Hlen Hd tail Htail.
      do 8 (destruct d as [|? d]; [discriminate Hlen|];
            cbn [all_digits] in Hd; apply andb_true_iff in Hd as [? Hd]).
      destruct d; [|discriminate Hlen].
      cbv [String.append phone_pattern repeat app].
      cbn [re_match Nat.eqb andb]. cbn [Ascii.eqb Bool.eqb andb].
      repeat match goal with H : is_decimal_digit _ = true |- _ =>
               rewrite H; clear H end.
      cbn [andb]. now rewrite Htail. }
    intros [(d & Hlen & Hd & ->)|(s0 & (d & Hlen & Hd & ->) & ->)].
    + specialize (Hok d Hlen Hd EmptyString eq_refl).
      rewrite append_empty_r in Hok. exact Hok.
    + rewrite append_assoc. now apply Hok.
Qed.

(** C5. The pattern ends with [$], which also matches before a newline that
    ends the string: the thirteen-character string made of a valid number
    and a newline is accepted, without a diagnostic, although it is not one
    of the twelve-digit numbers of the specification. *)
Theorem validate_phone_number_accepts_trailing_newline (self : PaymentModule) :
  let phone_number := "254712345678" +:+ String newline EmptyString in
  validate_phone_number phone_number self = (Return true, self, [])
  /\ String.length phone_number = 13%nat
  /\ ~ spec_phone_number phone_number.
Proof.
  cbn zeta. split; [reflexivity|]. split; [reflexivity|].
  intros (d & Hlen & _ & E).
  apply (f_equal String.length) in E.
  rewrite !length_append, Hlen in E. simpl in E. discriminate E.
Qed.

(** ** [validate_branch_limit] *)

Lemma validate_branch_limit_known (self : PaymentModule) (name : string)
    (d : tier) (n : Z) :
  SUBSCRIPTION_TIERS !! name = Some d ->
  validate_branch_limit name n self
  = if MAX_BRANCHES_PER_ACTION <? n
    then (Return false, self, [Print (MsgTooManyBranches MAX_BRANCHES_PER_ACTION)])
    else match limit d with
         | Some tier_limit =>
             if tier_limit <? n
             then (Return false, self,
                   [Print (MsgTierLimit (capitalize name) tier_limit)])
             else (Return true, self, [])
         | None => (Return true, self, [])
         end.
Proof.
  intros H. unfold validate_branch_limit. rewrite H.
  destruct (MAX_BRANCHES_PER_ACTION <? n); [reflexivity|].
  destruct (limit d) as [l|]; [|reflexivity].
  destruct (l <? n); reflexivity.
Qed.

Lemma validate_branch_limit_unknown (self : PaymentModule) (name : string) (n : Z) :
  SUBSCRIPTION_TIERS !! name = None ->
  validate_branch_limit name n self
  = if MAX_BRANCHES_PER_ACTION <? n
    then (Return false, self, [Print (MsgTooManyBranches MAX_BRANCHES_PER_ACTION)])
    else (Raise (KeyError name), self, []).
Proof.
  intros H. unfold validate_branch_limit. rewrite H.
  destruct (MAX_BRANCHES_PER_ACTION <? n); reflexivity.
Qed.

(** C6. For a key of the tier table and a count that is not negative,
    [validate_branch_limit] returns, leaves the instance alone, and returns
    false exactly when the count exceeds 10 or exceeds the finite limit of
    the tier. In particular starter passes with 10 and fails with 11, and
    enterprise passes with every count up to 10. *)
Theorem validate_branch_limit_rejects_iff (self : PaymentModule) (name : string)
    (d : tier) (n : Z) :
  SUBSCRIPTION_TIERS !! name = Some d ->
  0 <= n ->
  (exists (b : bool) (t : list event),
      validate_branch_limit name n self = (Return b, self, t)
      /\ (b = false <->
          MAX_BRANCHES_PER_ACTION < n
          \/ exists tier_limit, limit d = Some tier_limit /\ tier_limit < n))
  /\ result_of (validate_branch_limit "starter" 10 self) = Return true
  /\ result_of (validate_branch_limit "starter" 11 self) = Return false
  /\ (n <= 10 -> result_of (validate_branch_limit "enterprise" n self) = Return true).
Proof.
  intros Hkey Hn. split; [|split; [reflexivity|split; [reflexivity|]]].
  - rewrite (validate_branch_limit_known _ _ _ _ Hkey).
    destruct (Z.ltb_spec MAX_BRANCHES_PER_ACTION n) as [Hcap|Hcap].
    + do 2 eexists. split; [reflexivity|]. split; auto.
    + destruct (limit d) as [l|] eqn:El.
      * destruct (Z.ltb_spec l n) as [Hl|Hl]; do 2 eexists;
          (split; [reflexivity|]); split; eauto; [discriminate|].
        intros [?|(l' & [= <-] & ?)]; lia.
      * do 2 eexists. split; [reflexivity|]. split; [discriminate|].
        intros [?|(l' & Habs & _)]; [lia|discriminate Habs].
  - intros Hle. rewrite (validate_branch_limit_known _ _ _ _ tier_enterprise).
    destruct (Z.ltb_spec MAX_BRANCHES_PER_ACTION n) as [Hcap|Hcap];
      [unfold MAX_BRANCHES_PER_ACTION in Hcap; lia|reflexivity].
Qed.

Lemma validate_branch_limit_rejects_iff_witness :
  let self := init "key" "secret" "600977" "passkey" "http://127.0.0.1:5000/callback" in
  (exists (b : bool) (t : list event),
      validate_branch_limit "pro" 11 self = (Return b, self, t)
      /\ (b = false <->
          MAX_BRANCHES_PER_ACTION < 11
          \/ exists tier_limit,
               limit {| price := 300; limit := Some 100 |} = Some tier_limit
               /\ tier_limit < 11))
  /\ result_of (validate_branch_limit "starter" 10 self) = Return true
  /\ result_of (validate_branch_limit "starter" 11 self) = Return false
  /\ (11 <= 10 -> result_of (validate_branch_limit "enterprise" 11 self) = Return true).
Proof.
  apply (validate_branch_limit_rejects_iff _ "pro"); [reflexivity | lia].
Defined.

(** ** [get_access_token] *)

(** The token client never touches the instance and never sends the push
    request, whatever the token endpoint answers. *)
Lemma get_access_token_frame (reply : http_reply) (self : PaymentModule) :
  exists r t, get_access_token reply self = (r, self, t) /\ ~ push_issued t.
Proof.
  unfold get_access_token. run_M.
  destruct reply as [|status [body|]]; [| destruct (is_http_error status) ..];
    try (do 2 eexists; split; [reflexivity | no_push]).
  destruct body; cbn [get_method]; run_M;
    try (do 2 eexists; split; [reflexivity | no_push]).
  destruct (truthy (dict_get fields "access_token"));
    do 2 eexists; (split; [reflexivity | no_push]).
Qed.

Lemma get_access_token_failure (reply : http_reply) (self : PaymentModule) :
  token_failure reply ->
  result_of (get_access_token reply self) = Return JNull.
Proof.
  intros H. unfold get_access_token. run_M.
  destruct H as [|status body H|status|status fields H].
  - reflexivity.
  - now rewrite H.
  - now destruct (is_http_error status).
  - destruct (is_http_error status); [reflexivity|].
    cbn [get_method]. run_M. rewrite H. reflexivity.
Qed.

(** ** [handle_payment_failure] *)

Lemma handle_payment_failure_first (self : PaymentModule) (now : datetime) :
  failed_payment_attempts self = 0 ->
  handle_payment_failure now self
  = (Return tt,
     set_grace_period_end (now + timedelta_days GRACE_PERIOD_DAYS)
       (set_failed_payment_attempts 1 self),
     [Print (MsgGraceStarted GRACE_PERIOD_DAYS)]).
Proof.
  intros H. unfold handle_payment_failure. run_M.
  cbn [failed_payment_attempts set_failed_payment_attempts]. rewrite H.
  reflexivity.
Qed.

Lemma handle_payment_failure_later (self : PaymentModule) (now deadline : datetime) :
  failed_payment_attempts self <> 0 ->
  grace_period_end self = Some deadline ->
  handle_payment_failure now self
  = (Return tt,
     set_failed_payment_attempts (failed_payment_attempts self + 1) self,
     [Print (if now <? deadline then MsgRetryUntil deadline else MsgSuspended)]).
Proof.
  intros Hc Hg. unfold handle_payment_failure. run_M.
  cbn [failed_payment_attempts grace_period_end set_failed_payment_attempts].
  destruct (Z.eqb_spec (failed_payment_attempts self + 1) 1) as [E|_]; [lia|].
  rewrite Hg. destruct (now <? deadline); reflexivity.
Qed.

(** Outside the invariant the comparison would meet [None]. *)
Lemma handle_payment_failure_type_error (self : PaymentModule) (now : datetime) :
  failed_payment_attempts self <> 0 ->
  grace_period_end self = None ->
  handle_payment_failure now self
  = (Raise TypeError,
     set_failed_payment_attempts (failed_payment_attempts self + 1) self, []).
Proof.
  intros Hc Hg. unfold handle_payment_failure. run_M.
  cbn [failed_payment_attempts grace_period_end set_failed_payment_attempts].
  destruct (Z.eqb_spec (failed_payment_attempts self + 1) 1) as [E|_]; [lia|].
  now rewrite Hg.
Qed.

(** One recorded failure under the invariant: the call returns, the count
    grows by one, a deadline that was set stays, the invariant still holds
    and nothing is sent. *)
Lemma handle_payment_failure_step (self : PaymentModule) (now : datetime) :
  grace_invariant self ->
  let r := handle_payment_failure now self in
  result_of r = Return tt
  /\ failed_payment_attempts (self_of r) = failed_payment_attempts self + 1
  /\ (forall t, grace_period_end self = Some t ->
                grace_period_end (self_of r) = Some t)
  /\ grace_invariant (self_of r)
  /\ ~ push_issued (trace_of r).
Proof.
  intros [Hpos Hiff]. cbn zeta.
  destruct (Z.eq_dec (failed_payment_attempts self) 0) as [E|E].
  - rewrite (handle_payment_failure_first _ _ E). run_M.
    unfold grace_invariant.
    cbn [failed_payment_attempts grace_period_end set_failed_payment_attempts
         set_grace_period_end].
    repeat split; try lia; eauto; try no_push.
    intros t Ht. assert (is_Some (grace_period_end self)) as Hs by eauto.
    apply Hiff in Hs. lia.
  - destruct (grace_period_end self) as [deadline|] eqn:Hg.
    + rewrite (handle_payment_failure_later _ _ _ E Hg). run_M.
      unfold grace_invariant.
      cbn [failed_payment_attempts grace_period_end set_failed_payment_attempts].
      rewrite Hg. repeat split; try lia; eauto; try no_push.
    + assert (is_Some (@None datetime)) as [t Ht] by (apply Hiff; lia).
      discriminate Ht.
Qed.

(** ** The push request *)

Lemma stk_push_transport_error (w : world) (tok : json)
    (payload : list (string * json)) (self : PaymentModule) :
  stk_reply w = Unreachable \/ (exists status, stk_reply w = Reply status None) ->
  let f := handle_payment_failure (clock_failure w) self in
  result_of f = Return tt ->
  stk_push w tok payload self
  = (Return JNull, self_of f,
     HttpPost (stk_push_url self) tok "application/json" payload
       :: Print MsgErrorInitiating :: trace_of f).
Proof.
  cbn zeta. intros Hreply Hf. unfold stk_push.
  destruct Hreply as [->|[status ->]]; run_M;
    destruct (handle_payment_failure (clock_failure w) self) as [[r self'] t];
    cbn [fst snd] in *; subst r; cbn [app]; now rewrite app_nil_r.
Qed.

Lemma stk_push_rejected (w : world) (tok : json)
    (payload : list (string * json)) (self : PaymentModule)
    (status : Z) (fields : list (string * json)) :
  stk_reply w = Reply status (Some (JObj fields)) ->
  ne_str (dict_get fields "ResponseCode") "0" = true ->
  let f := handle_payment_failure (clock_failure w) self in
  result_of f = Return tt ->
  stk_push w tok payload self
  = (Return (JObj fields), self_of f,
     HttpPost (stk_push_url self) tok "application/json" payload
       :: Print (MsgStkResponse (JObj fields)) :: trace_of f).
Proof.
  cbn zeta. intros Hreply Hcode Hf. unfold stk_push.
  rewrite Hreply. cbn [get_method]. run_M. rewrite Hcode.
  destruct (handle_payment_failure (clock_failure w) self) as [[r self'] t].
  cbn [fst snd] in *. subst r. cbn [app].
  now rewrite app_nil_r.
Qed.

Lemma stk_push_accepted (w : world) (tok : json)
    (payload : list (string * json)) (self : PaymentModule)
    (status : Z) (fields : list (string * json)) :
  stk_reply w = Reply status (Some (JObj fields)) ->
  ne_str (dict_get fields "ResponseCode") "0" = false ->
  stk_push w tok payload self
  = (Return (JObj fields), self,
     [HttpPost (stk_push_url self) tok "application/json" payload;
      Print (MsgStkResponse (JObj fields)); Print MsgPaymentInitiated]).
Proof.
  intros Hreply Hcode. unfold stk_push.
  rewrite Hreply. cbn [get_method]. run_M. now rewrite Hcode.
Qed.

(** A body that is JSON but not an object has no [get]. *)
Lemma stk_push_not_an_object (w : world) (tok : json)
    (payload : list (string * json)) (self : PaymentModule)
    (status : Z) (body : json) :
  stk_reply w = Reply status (Some body) ->
  (forall fields, body <> JObj fields) ->
  stk_push w tok payload self
  = (Raise AttributeError, self,
     [HttpPost (stk_push_url self) tok "application/json" payload;
      Print (MsgStkResponse body)]).
Proof.
  intros Hreply Hbody. unfold stk_push. rewrite Hreply.
  destruct body; try reflexivity. now destruct (Hbody fields).
Qed.

(** Whatever the gateway answers, the push request is sent and the instance
    afterwards is either untouched or what one recorded failure makes it. *)
Lemma stk_push_cases (w : world) (tok : json)
    (payload : list (string * json)) (self : PaymentModule) :
  let r := stk_push w tok payload self in
  let f := handle_payment_failure (clock_failure w) self in
  push_issued (trace_of r)
  /\ ((self_of r = self /\ raised_of r <> Some TypeError)
      \/ (self_of r = self_of f
          /\ (result_of f = Return tt -> raised_of r = None))).
Proof.
  cbn zeta.
  destruct (stk_reply w) as [|status [body|]] eqn:Hreply.
  - unfold stk_push. rewrite Hreply. run_M.
    destruct (handle_payment_failure (clock_failure w) self)
      as [[[[]|e] self'] t]; cbn; (split; [apply push_issued_post|]);
      right; split; auto. discriminate.
  - assert ((exists fields, body = JObj fields)
            \/ forall fields, body <> JObj fields) as [[fields ->]|Hb].
    { destruct body; eauto; right; discriminate. }
    + destruct (ne_str (dict_get fields "ResponseCode") "0") eqn:Hcode.
      * unfold stk_push. rewrite Hreply. cbn [get_method]. run_M.
        rewrite Hcode.
        destruct (handle_payment_failure (clock_failure w) self)
          as [[[[]|e] self'] t]; cbn; (split; [apply push_issued_post|]);
          right; split; auto. discriminate.
      * rewrite (stk_push_accepted _ _ _ _ _ _ Hreply Hcode).
        split; [apply push_issued_post|].
        left. split; [reflexivity|discriminate].
    + rewrite (stk_push_not_an_object _ _ _ _ _ _ Hreply Hb).
      split; [apply push_issued_post|].
      left. split; [reflexivity|]. cbn. discriminate.
  - unfold stk_push. rewrite Hreply. run_M.
    destruct (handle_payment_failure (clock_failure w) self)
      as [[[[]|e] self'] t]; cbn; (split; [apply push_issued_post|]);
      right; split; auto. discriminate.
Qed.

(** ** [initiate_payment] *)

Lemma validate_branch_limit_passes (self : PaymentModule) (phone name : string)
    (d : tier) (n : Z) :
  passes_validation phone name d n ->
  validate_branch_limit name n self = (Return true, self, []).
Proof.
  intros (_ & Hkey & Hcap & Hlim).
  rewrite (validate_branch_limit_known _ _ _ _ Hkey).
  destruct (Z.ltb_spec MAX_BRANCHES_PER_ACTION n) as [?|_]; [lia|].
  destruct (limit d) as [l|]; [|reflexivity].
  specialize (Hlim l eq_refl).
  destruct (Z.ltb_spec l n) as [?|_]; [lia|reflexivity].
Qed.

(** With valid inputs and a token, the call is the token request followed by
    the push request with the payload above. *)
Lemma initiate_payment_pushes (w : world) (phone name : string) (d : tier)
    (n : Z) (self : PaymentModule) (tok : json) (t0 : list event) :
  passes_validation phone name d n ->
  get_access_token (token_reply w) self = (Return tok, self, t0) ->
  truthy tok = true ->
  initiate_payment w phone name n self
  = let p := stk_push w tok (payload_of self w phone name d n) self in
    (result_of p, self_of p, t0 ++ trace_of p).
Proof.
  intros Hv Htok Htruthy. pose proof Hv as (Hphone & Hkey & _).
  unfold initiate_payment.
  unfold mbind at 1. unfold M_bind at 1.
  rewrite validate_phone_number_returns, Hphone. cbn [negb].
  unfold mbind at 1. unfold M_bind at 1.
  rewrite (validate_branch_limit_passes _ _ _ _ _ Hv). cbn [negb].
  rewrite (tier_key_lower _ _ Hkey).
  unfold mbind at 1. unfold M_bind at 1.
  rewrite Htok, Htruthy. cbn [negb].
  unfold mbind at 1. unfold M_bind at 1.
  rewrite generate_password_returns.
  unfold mbind at 1. unfold M_bind at 1. unfold get_self at 1.
  fold (password_of self (clock_stamp w)).
  fold (payload_of self w phone name d n).
  destruct (stk_push w tok (payload_of self w phone name d n) self)
    as [[r self'] t].
  reflexivity.
Qed.

Ltac step_bind := unfold mbind at 1; unfold M_bind at 1.

Lemma initiate_payment_bad_phone (w : world) (phone name : string) (n : Z)
    (self : PaymentModule) :
  re_match phone_pattern 0 phone = false ->
  initiate_payment w phone name n self
  = (Return JNull, self, [Print MsgInvalidPhone]).
Proof.
  intros Hphone. unfold initiate_payment. step_bind.
  rewrite validate_phone_number_returns, Hphone. reflexivity.
Qed.

(** The lookup of [validate_branch_limit] comes before the test written for
    an unknown tier: with at most 10 branches the call raises. *)
Lemma initiate_payment_unknown_tier (w : world) (phone name : string) (n : Z)
    (self : PaymentModule) :
  re_match phone_pattern 0 phone = true ->
  SUBSCRIPTION_TIERS !! name = None ->
  initiate_payment w phone name n self
  = if MAX_BRANCHES_PER_ACTION <? n
    then (Return JNull, self, [Print (MsgTooManyBranches MAX_BRANCHES_PER_ACTION)])
    else (Raise (KeyError name), self, []).
Proof.
  intros Hphone Hkey. unfold initiate_payment. step_bind.
  rewrite validate_phone_number_returns, Hphone. cbn [negb]. step_bind.
  rewrite (validate_branch_limit_unknown _ _ _ Hkey).
  destruct (MAX_BRANCHES_PER_ACTION <? n); reflexivity.
Qed.

Lemma initiate_payment_over_limit (w : world) (phone name : string) (n : Z)
    (self : PaymentModule) (t : list event) :
  re_match phone_pattern 0 phone = true ->
  validate_branch_limit name n self = (Return false, self, t) ->
  initiate_payment w phone name n self = (Return JNull, self, t).
Proof.
  intros Hphone Hlimit. unfold initiate_payment. step_bind.
  rewrite validate_phone_number_returns, Hphone. cbn [negb]. step_bind.
  rewrite Hlimit. cbn. now rewrite app_nil_r.
Qed.

Lemma initiate_payment_no_token (w : world) (phone name : string) (d : tier)
    (n : Z) (self : PaymentModule) (tok : json) (t0 : list event) :
  passes_validation phone name d n ->
  get_access_token (token_reply w) self = (Return tok, self, t0) ->
  truthy tok = false ->
  initiate_payment w phone name n self
  = (Return JNull, self, t0 ++ [Print MsgTokenAborted]).
Proof.
  intros Hv Htok Htruthy. pose proof Hv as (Hphone & Hkey & _).
  unfold initiate_payment. step_bind.
  rewrite validate_phone_number_returns, Hphone. cbn [negb]. step_bind.
  rewrite (validate_branch_limit_passes _ _ _ _ _ Hv). cbn [negb].
  rewrite (tier_key_lower _ _ Hkey). step_bind.
  rewrite Htok, Htruthy. reflexivity.
Qed.

Lemma initiate_payment_token_raises (w : world) (phone name : string) (d : tier)
    (n : Z) (self : PaymentModule) (e : exn) (t0 : list event) :
  passes_validation phone name d n ->
  get_access_token (token_reply w) self = (Raise e, self, t0) ->
  initiate_payment w phone name n self = (Raise e, self, t0).
Proof.
  intros Hv Htok. pose proof Hv as (Hphone & Hkey & _).
  unfold initiate_payment. step_bind.
  rewrite validate_phone_number_returns, Hphone. cbn [negb]. step_bind.
  rewrite (validate_branch_limit_passes _ _ _ _ _ Hv). cbn [negb].
  rewrite (tier_key_lower _ _ Hkey). step_bind.
  rewrite Htok. reflexivity.
Qed.

Lemma get_access_token_raises (reply : http_reply) (self : PaymentModule)
    (e : exn) :
  result_of (get_access_token reply self) = Raise e -> e = AttributeError.
Proof.
  unfold get_access_token. run_M.
  destruct reply as [|status [body|]];
    [| destruct (is_http_error status) ..]; try discriminate.
  destruct body; cbn [get_method]; run_M; try discriminate;
    try (intros [= <-]; reflexivity).
  destruct (truthy (dict_get fields "access_token")); discriminate.
Qed.

(** Either the call stops before the push request, and then the instance is
    untouched, or its inputs are those of [initiate_payment_pushes]. *)
Lemma initiate_payment_cases (w : world) (phone name : string) (n : Z)
    (self : PaymentModule) :
  let r := initiate_payment w phone name n self in
  (self_of r = self /\ ~ push_issued (trace_of r)
   /\ raised_of r <> Some TypeError)
  \/ (exists d tok t0,
        passes_validation phone name d n
        /\ get_access_token (token_reply w) self = (Return tok, self, t0)
        /\ truthy tok = true
        /\ ~ push_issued t0).
Proof.
  cbn zeta.
  destruct (re_match phone_pattern 0 phone) eqn:Hphone.
  2: { left. rewrite (initiate_payment_bad_phone _ _ _ _ _ Hphone). cbn.
       repeat split; [no_push|discriminate]. }
  destruct (SUBSCRIPTION_TIERS !! name) as [d|] eqn:Hkey.
  2: { left. rewrite (initiate_payment_unknown_tier _ _ _ _ _ Hphone Hkey).
       destruct (MAX_BRANCHES_PER_ACTION <? n); cbn;
         repeat split; try no_push; discriminate. }
  assert (passes_validation phone name d n
          \/ exists m, validate_branch_limit name n self
                       = (Return false, self, [Print m])) as [Hv|[m Hm]].
  { rewrite (validate_branch_limit_known _ _ _ _ Hkey).
    destruct (Z.ltb_spec MAX_BRANCHES_PER_ACTION n) as [?|?]; [right; eauto|].
    destruct (limit d) as [l|] eqn:El.
    - destruct (Z.ltb_spec l n) as [?|?]; [right; eauto|].
      left. split; [|split; [|split]]; auto.
      intros l' Hl'. assert (l' = l) by congruence. lia.
    - left. split; [|split; [|split]]; auto.
      intros l' Hl'. congruence. }
  2: { left. rewrite (initiate_payment_over_limit _ _ _ _ _ _ Hphone Hm). cbn.
       repeat split; [no_push|discriminate]. }
  destruct (get_access_token_frame (token_reply w) self) as (rt & t0 & Htok & Hno).
  destruct rt as [tok|e].
  - destruct (truthy tok) eqn:Htruthy.
    + right. exists d, tok, t0. auto.
    + left. rewrite (initiate_payment_no_token _ _ _ _ _ _ _ _ Hv Htok Htruthy).
      cbn. repeat split; [no_push|discriminate].
  - left. rewrite (initiate_payment_token_raises _ _ _ _ _ _ _ _ Hv Htok).
    cbn. repeat split; [no_push|].
    pose proof (get_access_token_raises (token_reply w) self e) as He.
    rewrite Htok in He. rewrite (He eq_refl). discriminate.
Qed.

(** ** The failure state along a sequence of calls *)

Lemma call_preserves_refl (self : PaymentModule) :
  grace_invariant self -> call_preserves self self.
Proof. intros H. repeat split; try apply H; auto. lia. Qed.

Lemma call_preserves_failure (self : PaymentModule) (now : datetime) :
  grace_invariant self ->
  call_preserves self (self_of (handle_payment_failure now self)).
Proof.
  intros H.
  destruct (handle_payment_failure_step self now H) as (_ & Hc & Hg & Hi & _).
  split; [exact Hi|]. split; [lia|exact Hg].
Qed.

Lemma validate_branch_limit_frame (self : PaymentModule) (name : string) (n : Z) :
  self_of (validate_branch_limit name n self) = self
  /\ raised_of (validate_branch_limit name n self) <> Some TypeError.
Proof.
  destruct (SUBSCRIPTION_TIERS !! name) as [d|] eqn:Hkey.
  - rewrite (validate_branch_limit_known _ _ _ _ Hkey).
    destruct (MAX_BRANCHES_PER_ACTION <? n); [split; [reflexivity|discriminate]|].
    destruct (limit d) as [l|]; [destruct (l <? n)|];
      (split; [reflexivity|discriminate]).
  - rewrite (validate_branch_limit_unknown _ _ _ Hkey).
    destruct (MAX_BRANCHES_PER_ACTION <? n);
      (split; [reflexivity|discriminate]).
Qed.

Lemma initiate_payment_step (w : world) (phone name : string) (n : Z)
    (self : PaymentModule) :
  grace_invariant self ->
  let r := initiate_payment w phone name n self in
  call_preserves self (self_of r) /\ raised_of r <> Some TypeError.
Proof.
  intros Hinv. cbn zeta.
  destruct (initiate_payment_cases w phone name n self)
    as [(Hs & _ & Hr)|(d & tok & t0 & Hv & Htok & Htruthy & _)].
  - rewrite Hs. split; [now apply call_preserves_refl|exact Hr].
  - rewrite (initiate_payment_pushes _ _ _ _ _ _ _ _ Hv Htok Htruthy).
    cbn zeta.
    destruct (stk_push_cases w tok (payload_of self w phone name d n) self)
      as (_ & [(Hs & Hr)|(Hs & Hr)]).
    + unfold self_of at 1, raised_of at 1, result_of at 1. cbn [fst snd].
      fold (self_of (stk_push w tok (payload_of self w phone name d n) self)).
      rewrite Hs. split; [now apply call_preserves_refl|exact Hr].
    + destruct (handle_payment_failure_step self (clock_failure w) Hinv)
        as (Hret & _).
      unfold self_of at 1, raised_of at 1, result_of at 1. cbn [fst snd].
      fold (self_of (stk_push w tok (payload_of self w phone name d n) self)).
      rewrite Hs. split; [now apply call_preserves_failure|].
      specialize (Hr Hret). unfold raised_of in Hr.
      destruct (result_of (stk_push w tok (payload_of self w phone name d n) self));
        discriminate.
Qed.

Lemma run_call_step (c : call) (self : PaymentModule) :
  grace_invariant self ->
  call_preserves self (run_call c self).2
  /\ (run_call c self).1 <> Some TypeError.
Proof.
  intros Hinv. destruct c as [reply|ts|phone|name n|w phone name n|now];
    cbn [run_call fst snd].
  - destruct (get_access_token_frame reply self) as (r & t & E & _).
    pose proof (get_access_token_raises reply self) as Hr.
    rewrite E in *. cbn in *. split; [now apply call_preserves_refl|].
    destruct r as [|e]; [discriminate|]. rewrite (Hr e eq_refl). discriminate.
  - rewrite generate_password_returns. cbn.
    split; [now apply call_preserves_refl|discriminate].
  - rewrite validate_phone_number_returns. cbn.
    split; [now apply call_preserves_refl|discriminate].
  - destruct (validate_branch_limit_frame self name n) as [Hs Hr].
    rewrite Hs. split; [now apply call_preserves_refl|exact Hr].
  - now apply initiate_payment_step.
  - destruct (handle_payment_failure_step self now Hinv) as (Hret & _).
    split; [now apply call_preserves_failure|].
    unfold raised_of. rewrite Hret. discriminate.
Qed.

Lemma after_calls_preserves (calls : list call) (self : PaymentModule) :
  grace_invariant self -> call_preserves self (after_calls calls self).
Proof.
  revert self. induction calls as [|c calls IH]; intros self Hinv.
  - now apply call_preserves_refl.
  - cbn [after_calls fold_left].
    destruct (run_call_step c self Hinv) as [(Hi & Hc & Hg) _].
    destruct (IH _ Hi) as (Hi' & Hc' & Hg').
    fold (after_calls calls (run_call c self).2).
    split; [exact Hi'|]. split; [lia|]. intros t Ht. auto.
Qed.

Lemma init_invariant (ck cs sc pk cb : string) :
  grace_invariant (init ck cs sc pk cb).
Proof.
  split; cbn; [lia|]. split; [intros [t Ht]; discriminate Ht|lia].
Qed.

(** C8. After any sequence of calls on a freshly built instance, the deadline
    is set exactly when at least one failure has been counted; a deadline
    that is set is still the same after any further calls; and no call
    raises the [TypeError] that the comparison with an absent deadline would
    cause: [handle_payment_failure] returns. *)
Theorem grace_period_end_set_iff_failed
    (ck cs sc pk cb : string) (calls : list call) :
  let self := after_calls calls (init ck cs sc pk cb) in
  (is_Some (grace_period_end self) <-> 1 <= failed_payment_attempts self)
  /\ (forall more t,
        grace_period_end self = Some t ->
        grace_period_end (after_calls more self) = Some t)
  /\ (forall c, (run_call c self).1 <> Some TypeError)
  /\ (forall now, result_of (handle_payment_failure now self) = Return tt).
Proof.
  cbn zeta.
  destruct (after_calls_preserves calls _ (init_invariant ck cs sc pk cb))
    as (Hinv & _ & _).
  split; [apply Hinv|]. split; [|split].
  - intros more t Ht.
    destruct (after_calls_preserves more _ Hinv) as (_ & _ & Hg). auto.
  - intros c. now apply run_call_step.
  - intros now. now apply handle_payment_failure_step.
Qed.

(** C1. On an instance reached from construction by any sequence of calls,
    a call of [handle_payment_failure] at time [now] does one of three
    things. With a count of 0 it makes the count 1, sets the deadline to
    [now] plus seven days and announces the grace period. Otherwise a
    deadline is set, the deadline stays as it is and the count grows by one;
    the call announces the deadline when [now] is before it, and the
    suspension when it is not. The count is at least 1 after the call, and
    still so after any further calls. *)
Theorem handle_payment_failure_three_branches
    (ck cs sc pk cb : string) (calls : list call) (now : datetime) :
  let self := after_calls calls (init ck cs sc pk cb) in
  let r := handle_payment_failure now self in
  (failed_payment_attempts self = 0 ->
   r = (Return tt,
        set_grace_period_end (now + timedelta_days 7)
          (set_failed_payment_attempts 1 self),
        [Print (MsgGraceStarted 7)]))
  /\ (failed_payment_attempts self <> 0 ->
      exists deadline,
        grace_period_end self = Some deadline
        /\ (now < deadline ->
            r = (Return tt,
                 set_failed_payment_attempts (failed_payment_attempts self + 1) self,
                 [Print (MsgRetryUntil deadline)]))
        /\ (deadline <= now ->
            r = (Return tt,
                 set_failed_payment_attempts (failed_payment_attempts self + 1) self,
                 [Print MsgSuspended])))
  /\ failed_payment_attempts (self_of r) = failed_payment_attempts self + 1
  /\ (forall more, 1 <= failed_payment_attempts (after_calls more (self_of r))).
Proof.
  cbn zeta.
  destruct (after_calls_preserves calls _ (init_invariant ck cs sc pk cb))
    as (Hinv & _ & _).
  set (self := after_calls calls (init ck cs sc pk cb)) in *.
  split; [|split; [|split]].
  - intros H0. now rewrite (handle_payment_failure_first _ _ H0).
  - intros Hne. destruct Hinv as [Hpos Hiff].
    destruct (proj2 Hiff) as [deadline Hd]; [lia|].
    exists deadline. split; [exact Hd|].
    rewrite (handle_payment_failure_later _ _ _ Hne Hd). split; intros Hcmp.
    + apply Z.ltb_lt in Hcmp. now rewrite Hcmp.
    + apply Z.ltb_ge in Hcmp. now rewrite Hcmp.
  - now apply handle_payment_failure_step.
  - intros more.
    destruct (handle_payment_failure_step self now Hinv) as (_ & Hc & _ & Hi & _).
    destruct (after_calls_preserves more _ Hi) as (_ & Hmono & _).
    destruct Hinv. lia.
Qed.

(** ** What is sent *)

Lemma handle_payment_failure_no_push (self : PaymentModule) (now : datetime) :
  ~ push_issued (trace_of (handle_payment_failure now self)).
Proof.
  unfold handle_payment_failure. run_M.
  cbn [failed_payment_attempts grace_period_end set_failed_payment_attempts].
  destruct (failed_payment_attempts self + 1 =? 1); [discriminate|].
  destruct (grace_period_end self) as [deadline|]; [|discriminate].
  destruct (now <? deadline); discriminate.
Qed.

(** The push request is the first event of the [try] block and the only
    request in it. *)
Lemma stk_push_trace (w : world) (tok : json)
    (payload : list (string * json)) (self : PaymentModule) :
  exists t',
    trace_of (stk_push w tok payload self)
    = HttpPost (stk_push_url self) tok "application/json" payload :: t'
    /\ ~ push_issued t'.
Proof.
  pose proof (handle_payment_failure_no_push self (clock_failure w)) as Hn.
  destruct (stk_reply w) as [|status [body|]] eqn:Hreply.
  - unfold stk_push. rewrite Hreply. run_M.
    destruct (handle_payment_failure (clock_failure w) self)
      as [[[[]|e] self'] t]; cbn in *;
      (eexists; split; [reflexivity|]); no_push.
  - assert ((exists fields, body = JObj fields)
            \/ forall fields, body <> JObj fields) as [[fields ->]|Hb].
    { destruct body; eauto; right; discriminate. }
    + destruct (ne_str (dict_get fields "ResponseCode") "0") eqn:Hcode.
      * unfold stk_push. rewrite Hreply. cbn [get_method]. run_M.
        rewrite Hcode.
        destruct (handle_payment_failure (clock_failure w) self)
          as [[[[]|e] self'] t]; cbn in *;
          (eexists; split; [reflexivity|]); no_push.
      * rewrite (stk_push_accepted _ _ _ _ _ _ Hreply Hcode).
        eexists; split; [reflexivity|]; no_push.
    + rewrite (stk_push_not_an_object _ _ _ _ _ _ Hreply Hb).
      eexists; split; [reflexivity|]; no_push.
  - unfold stk_push. rewrite Hreply. run_M.
    destruct (handle_payment_failure (clock_failure w) self)
      as [[[[]|e] self'] t]; cbn in *;
      (eexists; split; [reflexivity|]); no_push.
Qed.

(** With valid inputs and a token, exactly one push request is sent, and its
    payload is [payload_of]. *)
Lemma initiate_payment_pushed_payloads (w : world) (phone name : string)
    (d : tier) (n : Z) (self : PaymentModule) (tok : json) :
  passes_validation phone name d n ->
  result_of (get_access_token (token_reply w) self) = Return tok ->
  truthy tok = true ->
  pushed_payloads (trace_of (initiate_payment w phone name n self))
  = [payload_of self w phone name d n].
Proof.
  intros Hv Htok Htruthy.
  destruct (get_access_token_frame (token_reply w) self) as (r & t0 & E & Hno).
  rewrite E in Htok. cbn in Htok. subst r.
  rewrite (initiate_payment_pushes _ _ _ _ _ _ _ _ Hv E Htruthy).
  cbn zeta. unfold trace_of at 1. cbn [snd].
  destruct (stk_push_trace w tok (payload_of self w phone name d n) self)
    as (t' & Et & Hno').
  rewrite pushed_payloads_app, Et, (pushed_payloads_none _ Hno).
  cbn. now rewrite (pushed_payloads_none _ Hno').
Qed.

Lemma payload_amount (self : PaymentModule) (w : world) (phone name : string)
    (d : tier) (n : Z) :
  dict_get (payload_of self w phone name d n) "Amount" = JInt (price d + n * 100).
Proof. reflexivity. Qed.

(** ** [initiate_payment] and the failure policy *)

Lemma ne_str_false (v : json) (s : string) : ne_str v s = false <-> v = JStr s.
Proof.
  destruct v; cbn; try (split; discriminate).
  rewrite negb_false_iff, String.eqb_eq. split; congruence.
Qed.

Lemma ne_str_true (v : json) (s : string) : ne_str v s = true <-> v <> JStr s.
Proof.
  rewrite <- ne_str_false. destruct (ne_str v s); split; congruence.
Qed.

(** Take an instance reached from construction and a call of
    [initiate_payment] during which the push request is sent. If the POST
    raises (no answer, or an answer that is not JSON) the call returns
    [None] and the instance is what one [handle_payment_failure] makes it.
    If the answer is a JSON object the call returns that object; with a
    [ResponseCode] other than the string "0" (or none) the instance is what
    one [handle_payment_failure] makes it, the count one higher; with
    [ResponseCode] "0" the instance is unchanged. *)
Theorem initiate_payment_records_failure
    (ck cs sc pk cb : string) (calls : list call)
    (w : world) (phone name : string) (n : Z) :
  let self := after_calls calls (init ck cs sc pk cb) in
  let r := initiate_payment w phone name n self in
  let f := handle_payment_failure (clock_failure w) self in
  push_issued (trace_of r) ->
  (stk_reply w = Unreachable \/ (exists status, stk_reply w = Reply status None) ->
   result_of r = Return JNull
   /\ self_of r = self_of f
   /\ failed_payment_attempts (self_of r) = failed_payment_attempts self + 1)
  /\ (forall status fields,
        stk_reply w = Reply status (Some (JObj fields)) ->
        result_of r = Return (JObj fields)
        /\ (dict_get fields "ResponseCode" <> JStr "0" ->
            self_of r = self_of f
            /\ failed_payment_attempts (self_of r)
               = failed_payment_attempts self + 1)
        /\ (dict_get fields "ResponseCode" = JStr "0" -> self_of r = self)).
Proof.
  cbn zeta.
  destruct (after_calls_preserves calls _ (init_invariant ck cs sc pk cb))
    as (Hinv & _ & _).
  set (self := after_calls calls (init ck cs sc pk cb)) in *.
  intros Hpush.
  destruct (initiate_payment_cases w phone name n self)
    as [(_ & Hno & _)|(d & tok & t0 & Hv & Htok & Htruthy & _)];
    [contradiction|].
  rewrite (initiate_payment_pushes _ _ _ _ _ _ _ _ Hv Htok Htruthy).
  cbn zeta. unfold result_of at 1 2, self_of at 1 3 4. cbn [fst snd].
  destruct (handle_payment_failure_step self (clock_failure w) Hinv)
    as (Hret & Hcount & _).
  split.
  - intros Hreply.
    rewrite (stk_push_transport_error _ _ _ _ Hreply Hret). cbn.
    auto.
  - intros status fields Hreply.
    destruct (ne_str (dict_get fields "ResponseCode") "0") eqn:Hcode.
    + rewrite (stk_push_rejected _ _ _ _ _ _ Hreply Hcode Hret). cbn.
      split; [reflexivity|]. split; [auto|].
      intros Hzero. apply ne_str_true in Hcode. contradiction.
    + rewrite (stk_push_accepted _ _ _ _ _ _ Hreply Hcode). cbn.
      split; [reflexivity|]. split; [|reflexivity].
      intros Hne. apply ne_str_false in Hcode. contradiction.
Qed.

Lemma initiate_payment_records_failure_witness :
  let w := {| token_reply := Reply 200 (Some (JObj [("access_token", JStr "t0k3n")]));
              clock_stamp := "20240101120000";
              stk_reply := Reply 200 (Some (JObj [("ResponseCode", JStr "1")]));
              clock_failure := 1000 |} in
  let self := after_calls [] (init "key" "secret" "600977" "passkey" "http://cb") in
  let r := initiate_payment w "254712345678" "pro" 5 self in
  let f := handle_payment_failure (clock_failure w) self in
  push_issued (trace_of r)
  /\ ((stk_reply w = Unreachable \/ (exists status, stk_reply w = Reply status None) ->
       result_of r = Return JNull
       /\ self_of r = self_of f
       /\ failed_payment_attempts (self_of r) = failed_payment_attempts self + 1)
      /\ (forall status fields,
            stk_reply w = Reply status (Some (JObj fields)) ->
            result_of r = Return (JObj fields)
            /\ (dict_get fields "ResponseCode" <> JStr "0" ->
                self_of r = self_of f
                /\ failed_payment_attempts (self_of r)
                   = failed_payment_attempts self + 1)
            /\ (dict_get fields "ResponseCode" = JStr "0" -> self_of r = self))).
Proof.
  cbn zeta. split; [vm_compute; reflexivity|].
  apply (initiate_payment_records_failure "key" "secret" "600977" "passkey" "http://cb" []).
  vm_compute; reflexivity.
Defined.

(** C3. For a key of the tier table and a branch count from 0 to 10, with a
    valid phone number and a token, [initiate_payment] sends one push
    request whose [Amount] is the base price of the tier plus 100 per
    branch; that amount is not negative; and the base prices are 100 for
    starter, 300 for pro and 500 for enterprise. *)
Theorem total_amount_in_payload (self : PaymentModule) (w : world)
    (phone name : string) (d : tier) (n : Z) (tok : json) :
  SUBSCRIPTION_TIERS !! name = Some d ->
  0 <= n <= 10 ->
  re_match phone_pattern 0 phone = true ->
  result_of (get_access_token (token_reply w) self) = Return tok ->
  truthy tok = true ->
  (exists payload,
      pushed_payloads (trace_of (initiate_payment w phone name n self)) = [payload]
      /\ dict_get payload "Amount" = JInt (price d + 100 * n))
  /\ 0 <= price d + 100 * n
  /\ (name = "starter" /\ price d = 100
      \/ name = "pro" /\ price d = 300
      \/ name = "enterprise" /\ price d = 500).
Proof.
  intros Hkey Hn Hphone Htok Htruthy.
  assert (passes_validation phone name d n) as Hv.
  { split; [exact Hphone|]. split; [exact Hkey|].
    split; [unfold MAX_BRANCHES_PER_ACTION; lia|].
    intros l Hl.
    destruct (tier_keys _ _ Hkey) as [[_ ->]|[[_ ->]|[_ ->]]];
      cbn in Hl; inversion Hl; lia. }
  split; [|split].
  - exists (payload_of self w phone name d n).
    split; [now apply initiate_payment_pushed_payloads with (tok := tok)|].
    rewrite payload_amount. f_equal. lia.
  - pose proof (tier_price_positive _ _ Hkey). lia.
  - destruct (tier_keys _ _ Hkey) as [[-> ->]|[[-> ->]|[-> ->]]]; cbn; auto.
Qed.

Lemma total_amount_in_payload_witness :
  let w := {| token_reply := Reply 200 (Some (JObj [("access_token", JStr "t0k3n")]));
              clock_stamp := "20240101120000";
              stk_reply := Reply 200 (Some (JObj [("ResponseCode", JStr "0")]));
              clock_failure := 1000 |} in
  let self := init "key" "secret" "600977" "passkey" "http://cb" in
  let d := {| price := 300; limit := Some 100 |} in
  (SUBSCRIPTION_TIERS !! "pro" = Some d
   /\ 0 <= 5 <= 10
   /\ re_match phone_pattern 0 "254712345678" = true
   /\ result_of (get_access_token (token_reply w) self) = Return (JStr "t0k3n")
   /\ truthy (JStr "t0k3n") = true)
  /\ (exists payload,
        pushed_payloads (trace_of (initiate_payment w "254712345678" "pro" 5 self))
        = [payload]
        /\ dict_get payload "Amount" = JInt (price d + 100 * 5))
  /\ 0 <= price d + 100 * 5
  /\ ("pro" = "starter" /\ price d = 100
      \/ "pro" = "pro" /\ price d = 300
      \/ "pro" = "enterprise" /\ price d = 500).
Proof.
  cbn zeta. split.
  - repeat split; try reflexivity; lia.
  - apply (total_amount_in_payload _ _ _ _ _ _ (JStr "t0k3n"));
      try reflexivity; lia.
Defined.

(** C10. [validate_branch_limit] has no lower bound: for a key of the tier
    table and a negative count it returns true without a diagnostic, and
    with a valid phone number and a token [initiate_payment] then sends the
    push request with an [Amount] of the base price plus 100 times the
    count, which is below the base price; for starter and -2 it is -100. *)
Theorem negative_branch_count_accepted (self : PaymentModule) (w : world)
    (phone name : string) (d : tier) (n : Z) (tok : json) :
  SUBSCRIPTION_TIERS !! name = Some d ->
  n < 0 ->
  validate_branch_limit name n self = (Return true, self, [])
  /\ (re_match phone_pattern 0 phone = true ->
      result_of (get_access_token (token_reply w) self) = Return tok ->
      truthy tok = true ->
      exists payload,
        pushed_payloads (trace_of (initiate_payment w phone name n self)) = [payload]
        /\ dict_get payload "Amount" = JInt (price d + 100 * n))
  /\ price d + 100 * n < price d
  /\ (name = "starter" -> n = -2 -> price d + 100 * n = -100).
Proof.
  intros Hkey Hn.
  assert (forall phone', re_match phone_pattern 0 phone' = true ->
                         passes_validation phone' name d n) as Hv.
  { intros phone' Hphone. split; [exact Hphone|]. split; [exact Hkey|].
    split; [unfold MAX_BRANCHES_PER_ACTION; lia|].
    intros l Hl.
    destruct (tier_keys _ _ Hkey) as [[_ ->]|[[_ ->]|[_ ->]]];
      cbn in Hl; inversion Hl; lia. }
  split; [|split; [|split]].
  - rewrite (validate_branch_limit_known _ _ _ _ Hkey).
    destruct (Z.ltb_spec MAX_BRANCHES_PER_ACTION n) as [H|_];
      [unfold MAX_BRANCHES_PER_ACTION in H; lia|].
    destruct (limit d) as [l|] eqn:El; [|reflexivity].
    destruct (Z.ltb_spec l n) as [H|_]; [|reflexivity].
    destruct (tier_keys _ _ Hkey) as [[_ ->]|[[_ ->]|[_ ->]]];
      cbn in El; inversion El; lia.
  - intros Hphone Htok Htruthy.
    exists (payload_of self w phone name d n).
    split; [now apply initiate_payment_pushed_payloads with (tok := tok); auto|].
    rewrite payload_amount. f_equal. lia.
  - lia.
  - intros -> ->. rewrite tier_starter in Hkey. inversion Hkey. reflexivity.
Qed.

Lemma negative_branch_count_accepted_witness :
  let w := {| token_reply := Reply 200 (Some (JObj [("access_token", JStr "t0k3n")]));
              clock_stamp := "20240101120000";
              stk_reply := Reply 200 (Some (JObj [("ResponseCode", JStr "0")]));
              clock_failure := 1000 |} in
  let self := init "key" "secret" "600977" "passkey" "http://cb" in
  let d := {| price := 100; limit := Some 10 |} in
  (SUBSCRIPTION_TIERS !! "starter" = Some d /\ -2 < 0)
  /\ validate_branch_limit "starter" (-2) self = (Return true, self, [])
  /\ (re_match phone_pattern 0 "254712345678" = true ->
      result_of (get_access_token (token_reply w) self) = Return (JStr "t0k3n") ->
      truthy (JStr "t0k3n") = true ->
      exists payload,
        pushed_payloads
          (trace_of (initiate_payment w "254712345678" "starter" (-2) self))
        = [payload]
        /\ dict_get payload "Amount" = JInt (price d + 100 * -2))
  /\ price d + 100 * -2 < price d
  /\ ("starter" = "starter" -> -2 = -2 -> price d + 100 * -2 = -100).
Proof.
  cbn zeta. split.
  - split; [reflexivity|lia].
  - apply (negative_branch_count_accepted _ _ _ "starter"); [reflexivity|lia].
Defined.

(** When the inputs pass validation and the token client gets no answer, a
    4xx or 5xx status, a body that is not JSON or a JSON object without the
    field, or returns a false value in any other way, [initiate_payment]
    returns [None], the instance (so both fields of the failure state) is
    exactly as before, and the push request is not sent. *)
Theorem auth_failure_leaves_failure_state (self : PaymentModule) (w : world)
    (phone name : string) (d : tier) (n : Z) :
  passes_validation phone name d n ->
  token_failure (token_reply w)
  \/ (exists tok, result_of (get_access_token (token_reply w) self) = Return tok
                  /\ truthy tok = false) ->
  let r := initiate_payment w phone name n self in
  result_of r = Return JNull
  /\ self_of r = self
  /\ failed_payment_attempts (self_of r) = failed_payment_attempts self
  /\ grace_period_end (self_of r) = grace_period_end self
  /\ ~ push_issued (trace_of r).
Proof.
  intros Hv Hfail. cbn zeta.
  assert (exists tok, result_of (get_access_token (token_reply w) self) = Return tok
                      /\ truthy tok = false) as (tok & Htok & Htruthy).
  { destruct Hfail as [Hf|Hf]; [|exact Hf].
    exists JNull. split; [now apply get_access_token_failure|reflexivity]. }
  destruct (get_access_token_frame (token_reply w) self) as (rt & t0 & E & Hno).
  rewrite E in Htok. cbn in Htok. subst rt.
  rewrite (initiate_payment_no_token _ _ _ _ _ _ _ _ Hv E Htruthy). cbn.
  repeat split. no_push.
Qed.

Lemma auth_failure_leaves_failure_state_witness :
  let w := {| token_reply := Reply 200 (Some (JObj [("error", JStr "invalid")]));
              clock_stamp := "20240101120000";
              stk_reply := Unreachable;
              clock_failure := 1000 |} in
  let self := init "key" "secret" "600977" "passkey" "http://cb" in
  let d := {| price := 300; limit := Some 100 |} in
  let r := initiate_payment w "254712345678" "pro" 5 self in
  (re_match phone_pattern 0 "254712345678" = true
   /\ SUBSCRIPTION_TIERS !! "pro" = Some d
   /\ 5 <= MAX_BRANCHES_PER_ACTION
   /\ result_of (get_access_token (token_reply w) self) = Return JNull)
  /\ result_of r = Return JNull
  /\ self_of r = self
  /\ failed_payment_attempts (self_of r) = failed_payment_attempts self
  /\ grace_period_end (self_of r) = grace_period_end self
  /\ ~ push_issued (trace_of r).
Proof.
  cbn zeta. split.
  - repeat split; try reflexivity. vm_compute. discriminate.
  - apply (auth_failure_leaves_failure_state _ _ _ _
             {| price := 300; limit := Some 100 |}).
    + split; [reflexivity|]. split; [reflexivity|].
      split; [vm_compute; discriminate|].
      intros l [= <-]. lia.
    + left. apply TokenMissing. reflexivity.
Defined.

(** C4. On a tier name that is not a key of the table, here "gold" with a
    valid phone number and no branches, [initiate_payment] does not return:
    the lookup inside [validate_branch_limit] raises [KeyError] before the
    test of the tier name is reached, so nothing is printed. *)
Theorem initiate_payment_unknown_tier_raises (self : PaymentModule) (w : world) :
  SUBSCRIPTION_TIERS !! "gold" = None
  /\ re_match phone_pattern 0 "254712345678" = true
  /\ initiate_payment w "254712345678" "gold" 0 self
     = (Raise (KeyError "gold"), self, []).
Proof.
  split; [reflexivity|]. split; [reflexivity|].
  now rewrite initiate_payment_unknown_tier.
Qed.

(** The test written for an unknown tier can never fail: once
    [validate_branch_limit] has returned true the name is a key, and the
    second lookup finds it. *)
Lemma invalid_tier_test_unreachable (self : PaymentModule) (name : string) (n : Z) :
  result_of (validate_branch_limit name n self) = Return true ->
  is_Some (SUBSCRIPTION_TIERS !! lower name).
Proof.
  destruct (SUBSCRIPTION_TIERS !! name) as [d|] eqn:Hkey.
  - intros _. rewrite (tier_key_lower _ _ Hkey). eauto.
  - rewrite (validate_branch_limit_unknown _ _ _ Hkey).
    destruct (MAX_BRANCHES_PER_ACTION <? n); discriminate.
Qed.

(** The same for every unknown tier name: with a valid phone number and at
    most 10 branches the call raises [KeyError]. *)
Lemma initiate_payment_unknown_tier_key_error (self : PaymentModule) (w : world)
    (phone name : string) (n : Z) :
  re_match phone_pattern 0 phone = true ->
  SUBSCRIPTION_TIERS !! name = None ->
  n <= MAX_BRANCHES_PER_ACTION ->
  initiate_payment w phone name n self = (Raise (KeyError name), self, []).
Proof.
  intros Hphone Hkey Hn.
  rewrite (initiate_payment_unknown_tier _ _ _ _ _ Hphone Hkey).
  destruct (Z.ltb_spec MAX_BRANCHES_PER_ACTION n); [lia|reflexivity].
Qed.

(** * Further properties *)

(** ** The callback endpoint *)

Ltac run_W := cbv [mbind mret W_bind W_ret throw say] in *.

Lemma subscript_found (fields : list (string * json)) (key : string) (x : json) :
  dict_find fields key = Some x -> subscript (JObj fields) key = (Return x, []).
Proof. intros H. unfold subscript. now rewrite H. Qed.

Lemma subscript_missing (fields : list (string * json)) (key : string) :
  dict_find fields key = None ->
  subscript (JObj fields) key = (Raise (KeyError key), []).
Proof. intros H. unfold subscript. now rewrite H. Qed.

Lemma subscript_not_object (v : json) (key : string) :
  (forall fields, v <> JObj fields) -> subscript v key = (Raise TypeError, []).
Proof. intros H. destruct v; try reflexivity. now destruct (H fields). Qed.

(** [d.get(key)] is the subscript with [None] for a missing key. *)
Lemma dict_get_find (fields : list (string * json)) (key : string) :
  dict_get fields key = default JNull (dict_find fields key).
Proof.
  induction fields as [|[k v] rest IH]; [reflexivity|].
  cbn. now destruct (String.eqb k key).
Qed.

(** Unfolds the block and replaces each lookup by what the hypotheses say
    it finds. *)
Ltac eval_W :=
  repeat (cbv beta iota
              delta [callback callback_body mbind mret W_bind W_ret throw say
                     subscript iterate];
          repeat match goal with
                 | H : dict_find _ _ = _ |- _ => rewrite !H
                 | H : eq_zero _ = _ |- _ => rewrite !H
                 end).

Lemma print_items_all (items : list json) (lines : list line) :
  Forall2 item_line items lines -> print_items items = (Return tt, lines).
Proof.
  induction 1 as [|item l items lines (f & name & value & -> & Hn & Hv & ->) _ IH];
    [reflexivity|].
  cbn [print_items].
  rewrite (subscript_found _ _ _ Hn), (subscript_found _ _ _ Hv). run_W.
  now rewrite IH.
Qed.

Lemma print_items_bad_item (bad : json) (rest : list json) :
  (forall l, ~ item_line bad l) ->
  exists e, print_items (bad :: rest) = (Raise e, []).
Proof.
  intros Hbad. cbn [print_items].
  destruct bad;
    try (exists TypeError; reflexivity).
  destruct (dict_find fields "Name") as [name|] eqn:Hn.
  - destruct (dict_find fields "Value") as [value|] eqn:Hv.
    + destruct (Hbad (LineItem name value)). exists fields, name, value. auto.
    + exists (KeyError "Value").
      rewrite (subscript_found _ _ _ Hn), (subscript_missing _ _ Hv).
      reflexivity.
  - exists (KeyError "Name"). now rewrite (subscript_missing _ _ Hn).
Qed.

Lemma print_items_stops (good : list json) (lines : list line)
    (bad : json) (rest : list json) :
  Forall2 item_line good lines ->
  (forall l, ~ item_line bad l) ->
  exists e, print_items (good ++ bad :: rest) = (Raise e, lines).
Proof.
  intros Hgood Hbad.
  destruct (print_items_bad_item bad rest Hbad) as [e He]. exists e.
  induction Hgood as [|item l good lines (f & name & value & -> & Hn & Hv & ->) _ IH].
  - exact He.
  - cbn [app print_items].
    rewrite (subscript_found _ _ _ Hn), (subscript_found _ _ _ Hv). run_W.
    now rewrite IH.
Qed.

(** A callback that reports a failure is acknowledged with 200 and its
    description is printed; [CallbackMetadata] is not read. *)
Theorem callback_reports_failure (data : json) (stk : list (string * json))
    (result_code result_desc : json) :
  carries data stk ->
  dict_find stk "ResultCode" = Some result_code ->
  eq_zero result_code = false ->
  dict_find stk "ResultDesc" = Some result_desc ->
  callback (Some data)
  = ((MessageBody "Callback received successfully", 200),
     [LineReceived; LineResponse data; LineFailed result_desc]).
Proof.
  intros (fields & body & -> & Hbody & Hstk) Hcode Hzero Hdesc.
  eval_W. reflexivity.
Qed.

Lemma carries_envelope (stk : list (string * json)) : carries (envelope stk) stk.
Proof. do 2 eexists. split; [reflexivity|]. split; reflexivity. Qed.

Lemma callback_reports_failure_witness :
  let stk := [("ResultCode", JStr "0"); ("ResultDesc", JStr "Request cancelled")] in
  callback (Some (envelope stk))
  = ((MessageBody "Callback received successfully", 200),
     [LineReceived; LineResponse (envelope stk);
      LineFailed (JStr "Request cancelled")]).
Proof.
  cbn zeta.
  eapply (callback_reports_failure _ _ (JStr "0"));
    [apply carries_envelope | reflexivity ..].
Defined.

(** [ResultDesc] is read before the result code is tested: without it the
    callback is answered with 500 and a [KeyError], whatever the result code
    and the metadata are. *)
Theorem callback_needs_result_desc (data : json) (stk : list (string * json))
    (result_code : json) :
  carries data stk ->
  dict_find stk "ResultCode" = Some result_code ->
  dict_find stk "ResultDesc" = None ->
  callback (Some data)
  = ((ErrorBody (Caught (KeyError "ResultDesc")), 500),
     [LineReceived; LineResponse data;
      LineError (Caught (KeyError "ResultDesc"))]).
Proof.
  intros (fields & body & -> & Hbody & Hstk) Hcode Hdesc.
  eval_W. reflexivity.
Qed.

Lemma callback_needs_result_desc_witness :
  let stk := [("ResultCode", JInt 0);
              ("CallbackMetadata",
               JObj [("Item", JArr [metadata_item (JStr "Amount") (JInt 800)])])] in
  callback (Some (envelope stk))
  = ((ErrorBody (Caught (KeyError "ResultDesc")), 500),
     [LineReceived; LineResponse (envelope stk);
      LineError (Caught (KeyError "ResultDesc"))]).
Proof.
  cbn zeta.
  eapply (callback_needs_result_desc _ _ (JInt 0));
    [apply carries_envelope | reflexivity ..].
Defined.

(** A successful callback whose [Item] is a list of items that all have
    [Name] and [Value] is acknowledged with 200, and one line per item is
    printed, in the order of the list. *)
Theorem callback_prints_items (data : json) (stk meta : list (string * json))
    (result_code result_desc : json) (items : list json) (lines : list line) :
  carries data stk ->
  dict_find stk "ResultCode" = Some result_code ->
  eq_zero result_code = true ->
  dict_find stk "ResultDesc" = Some result_desc ->
  dict_find stk "CallbackMetadata" = Some (JObj meta) ->
  dict_find meta "Item" = Some (JArr items) ->
  Forall2 item_line items lines ->
  callback (Some data)
  = ((MessageBody "Callback received successfully", 200),
     [LineReceived; LineResponse data; LineSuccessful] ++ lines).
Proof.
  intros (fields & body & -> & Hbody & Hstk) Hcode Hzero Hdesc Hmeta Hitem Hall.
  eval_W. rewrite (print_items_all _ _ Hall). reflexivity.
Qed.

Lemma item_line_metadata_item (name value : json) :
  item_line (metadata_item name value) (LineItem name value).
Proof. exists [("Name", name); ("Value", value)], name, value. auto. Qed.

Lemma callback_prints_items_witness :
  let items := [metadata_item (JStr "Amount") (JInt 800);
                metadata_item (JStr "MpesaReceiptNumber") (JStr "QK12")] in
  let stk := [("ResultCode", JInt 0); ("ResultDesc", JStr "ok");
              ("CallbackMetadata", JObj [("Item", JArr items)])] in
  callback (Some (envelope stk))
  = ((MessageBody "Callback received successfully", 200),
     [LineReceived; LineResponse (envelope stk); LineSuccessful]
       ++ [LineItem (JStr "Amount") (JInt 800);
           LineItem (JStr "MpesaReceiptNumber") (JStr "QK12")]).
Proof.
  cbn zeta.
  eapply (callback_prints_items _ _ _ (JInt 0) (JStr "ok"));
    [apply carries_envelope | reflexivity .. |].
  repeat constructor; apply item_line_metadata_item.
Defined.

(** The items are printed one by one: at the first item that is not an
    object with [Name] and [Value] the callback is answered with 500, after
    the lines of the items before it have been printed; the items after it
    are not looked at. *)
Theorem callback_stops_at_bad_item (data : json) (stk meta : list (string * json))
    (result_code result_desc : json) (good : list json) (lines : list line)
    (bad : json) (rest : list json) :
  carries data stk ->
  dict_find stk "ResultCode" = Some result_code ->
  eq_zero result_code = true ->
  dict_find stk "ResultDesc" = Some result_desc ->
  dict_find stk "CallbackMetadata" = Some (JObj meta) ->
  dict_find meta "Item" = Some (JArr (good ++ bad :: rest)) ->
  Forall2 item_line good lines ->
  (forall l, ~ item_line bad l) ->
  exists e,
    callback (Some data)
    = ((ErrorBody (Caught e), 500),
       [LineReceived; LineResponse data; LineSuccessful] ++ lines
         ++ [LineError (Caught e)]).
Proof.
  intros (fields & body & -> & Hbody & Hstk) Hcode Hzero Hdesc Hmeta Hitem
    Hgood Hbad.
  destruct (print_items_stops good lines bad rest Hgood Hbad) as [e He].
  exists e. eval_W. rewrite He. reflexivity.
Qed.

Lemma callback_stops_at_bad_item_witness :
  let items := [metadata_item (JStr "Amount") (JInt 800)]
                 ++ JObj [("Name", JStr "Balance")]
                 :: [metadata_item (JStr "PhoneNumber") (JInt 254712345678)] in
  let stk := [("ResultCode", JInt 0); ("ResultDesc", JStr "ok");
              ("CallbackMetadata", JObj [("Item", JArr items)])] in
  exists e,
    callback (Some (envelope stk))
    = ((ErrorBody (Caught e), 500),
       [LineReceived; LineResponse (envelope stk); LineSuccessful]
         ++ [LineItem (JStr "Amount") (JInt 800)] ++ [LineError (Caught e)]).
Proof.
  cbn zeta.
  eapply (callback_stops_at_bad_item _ _ _ (JInt 0) (JStr "ok"));
    [apply carries_envelope | reflexivity .. | |].
  - repeat constructor; apply item_line_metadata_item.
  - intros l (f & name & value & [= <-] & _ & Hv & _). discriminate Hv.
Defined.

(** A successful callback without [CallbackMetadata] is answered with 500,
    after the success has been printed. *)
Theorem callback_success_needs_metadata (data : json)
    (stk : list (string * json)) (result_code result_desc : json) :
  carries data stk ->
  dict_find stk "ResultCode" = Some result_code ->
  eq_zero result_code = true ->
  dict_find stk "ResultDesc" = Some result_desc ->
  dict_find stk "CallbackMetadata" = None ->
  callback (Some data)
  = ((ErrorBody (Caught (KeyError "CallbackMetadata")), 500),
     [LineReceived; LineResponse data; LineSuccessful;
      LineError (Caught (KeyError "CallbackMetadata"))]).
Proof.
  intros (fields & body & -> & Hbody & Hstk) Hcode Hzero Hdesc Hmeta.
  eval_W. reflexivity.
Qed.

Lemma callback_success_needs_metadata_witness :
  let stk := [("ResultCode", JBool false); ("ResultDesc", JStr "ok")] in
  callback (Some (envelope stk))
  = ((ErrorBody (Caught (KeyError "CallbackMetadata")), 500),
     [LineReceived; LineResponse (envelope stk); LineSuccessful;
      LineError (Caught (KeyError "CallbackMetadata"))]).
Proof.
  cbn zeta.
  eapply (callback_success_needs_metadata _ _ (JBool false) (JStr "ok"));
    [apply carries_envelope | reflexivity ..].
Defined.

(** A body that is JSON but not an object (a list, a string, a number,
    [null]) is answered with 500 and a [TypeError]. *)
Theorem callback_rejects_non_object (data : json) :
  (forall fields, data <> JObj fields) ->
  callback (Some data)
  = ((ErrorBody (Caught TypeError), 500),
     [LineReceived; LineResponse data; LineError (Caught TypeError)]).
Proof.
  intros H. unfold callback, callback_body.
  rewrite (subscript_not_object _ _ H). reflexivity.
Qed.

Lemma callback_rejects_non_object_witness :
  callback (Some (JArr []))
  = ((ErrorBody (Caught TypeError), 500),
     [LineReceived; LineResponse (JArr []); LineError (Caught TypeError)]).
Proof. apply callback_rejects_non_object. discriminate. Defined.

(** An object without [Body], or whose [Body] is an object without
    [stkCallback], is answered with 500 and the [KeyError] of that key. *)
Theorem callback_missing_envelope (fields : list (string * json)) (key : string) :
  (dict_find fields "Body" = None /\ key = "Body")
  \/ (exists body, dict_find fields "Body" = Some (JObj body)
                   /\ dict_find body "stkCallback" = None
                   /\ key = "stkCallback") ->
  callback (Some (JObj fields))
  = ((ErrorBody (Caught (KeyError key)), 500),
     [LineReceived; LineResponse (JObj fields);
      LineError (Caught (KeyError key))]).
Proof.
  intros [[Hbody ->]|(body & Hbody & Hstk & ->)]; eval_W; reflexivity.
Qed.

Lemma callback_missing_envelope_witness :
  callback (Some (JObj [("Body", JObj [("ResultCode", JInt 0)])]))
  = ((ErrorBody (Caught (KeyError "stkCallback")), 500),
     [LineReceived; LineResponse (JObj [("Body", JObj [("ResultCode", JInt 0)])]);
      LineError (Caught (KeyError "stkCallback"))]).
Proof.
  apply callback_missing_envelope. right.
  exists [("ResultCode", JInt 0)]. repeat split; reflexivity.
Defined.

(** ** The validators *)

(** Among the strings of the embedding, whose characters are all below
    U+0100, [validate_phone_number] returns true exactly for [2547] and eight
    of the digits 0-9, alone or followed by one newline; it prints its
    diagnostic exactly when it returns false, and never touches the
    instance. Decimal digits of other scripts, which the pattern accepts as
    well, lie beyond U+00FF. *)
Theorem validate_phone_number_exact (phone_number : string) (self : PaymentModule) :
  exists b : bool,
    validate_phone_number phone_number self
    = (Return b, self, if b then [] else [Print MsgInvalidPhone])
    /\ (b = true <->
        spec_phone_number phone_number
        \/ exists s0, spec_phone_number s0
                      /\ phone_number = s0 +:+ String newline EmptyString).
Proof.
  exists (re_match phone_pattern 0 phone_number).
  split; [apply validate_phone_number_returns|apply phone_pattern_accepts].
Qed.

(** [validate_branch_limit] raises exactly when the tier name is not a key
    and the count is at most 10, and what it raises is the [KeyError] of the
    name; in every case the instance is untouched. *)
Theorem validate_branch_limit_raises_iff (name : string) (n : Z)
    (self : PaymentModule) (e : exn) :
  (raised_of (validate_branch_limit name n self) = Some e
   <-> e = KeyError name
       /\ SUBSCRIPTION_TIERS !! name = None
       /\ n <= MAX_BRANCHES_PER_ACTION)
  /\ self_of (validate_branch_limit name n self) = self.
Proof.
  split; [|apply validate_branch_limit_frame].
  destruct (SUBSCRIPTION_TIERS !! name) as [d|] eqn:Hkey.
  - rewrite (validate_branch_limit_known _ _ _ _ Hkey).
    split; [|intros (_ & H & _); discriminate H].
    destruct (MAX_BRANCHES_PER_ACTION <? n); [discriminate|].
    destruct (limit d) as [l|]; [destruct (l <? n)|]; discriminate.
  - rewrite (validate_branch_limit_unknown _ _ _ Hkey).
    destruct (Z.ltb_spec MAX_BRANCHES_PER_ACTION n) as [Hn|Hn]; cbn.
    + split; [discriminate|]. intros (_ & _ & H). lia.
    + split; [intros [= <-]; auto|]. intros (-> & _). reflexivity.
Qed.

(** With the limits of the table (10, 100 and none) the cap of 10 per action
    decides alone: for every tier name, [validate_branch_limit] returns false
    exactly when the count exceeds 10, and the diagnostic of the tier limit
    is never printed. *)
Theorem validate_branch_limit_cap_decides (name : string) (n : Z)
    (self : PaymentModule) :
  (result_of (validate_branch_limit name n self) = Return false
   <-> MAX_BRANCHES_PER_ACTION < n)
  /\ (forall plan tier_limit,
        ~ In (Print (MsgTierLimit plan tier_limit))
             (trace_of (validate_branch_limit name n self))).
Proof.
  destruct (SUBSCRIPTION_TIERS !! name) as [d|] eqn:Hkey.
  - rewrite (validate_branch_limit_known _ _ _ _ Hkey).
    destruct (Z.ltb_spec MAX_BRANCHES_PER_ACTION n) as [Hn|Hn].
    + split; [tauto|]. intros plan l [H|[]]. discriminate H.
    + assert (forall l, limit d = Some l -> (l <? n) = false) as Hl.
      { intros l El. apply Z.ltb_ge.
        unfold MAX_BRANCHES_PER_ACTION in Hn.
        destruct (tier_keys _ _ Hkey) as [[_ ->]|[[_ ->]|[_ ->]]];
          cbn in El; inversion El; lia. }
      destruct (limit d) as [l|]; [rewrite (Hl l eq_refl)|];
        (split; [split; [discriminate|lia]|intros plan l' []]).
  - rewrite (validate_branch_limit_unknown _ _ _ Hkey).
    destruct (Z.ltb_spec MAX_BRANCHES_PER_ACTION n) as [Hn|Hn].
    + split; [tauto|]. intros plan l [H|[]]. discriminate H.
    + split; [split; [discriminate|lia]|intros plan l []].
Qed.

(** ** The token client *)

(** [get_access_token] yields a true value exactly when the answer has a
    status other than 4xx and 5xx and a JSON object as body whose
    [access_token] is a true value, and it returns that value as it is. *)
Theorem get_access_token_token_iff (reply : http_reply) (self : PaymentModule)
    (tok : json) :
  result_of (get_access_token reply self) = Return tok /\ truthy tok = true
  <-> exists status fields,
        reply = Reply status (Some (JObj fields))
        /\ is_http_error status = false
        /\ dict_get fields "access_token" = tok
        /\ truthy tok = true.
Proof.
  unfold get_access_token. run_M. split.
  - intros [Hr Ht].
    destruct reply as [|status [body|]].
    + injection Hr as <-. discriminate Ht.
    + destruct (is_http_error status) eqn:Hs;
        [injection Hr as <-; discriminate Ht|].
      destruct body; cbn [get_method] in Hr; run_M; try discriminate Hr.
      exists status, fields.
      destruct (truthy (dict_get fields "access_token")); cbn in Hr;
        injection Hr as <-; auto.
    + destruct (is_http_error status); injection Hr as <-; discriminate Ht.
  - intros (status & fields & -> & Hs & <- & Ht). rewrite Hs.
    cbn [get_method]. run_M. rewrite Ht. cbn. auto.
Qed.

(** [get_access_token] raises exactly when the status is not 4xx or 5xx and
    the body is JSON but not an object, and then it raises
    [AttributeError]. In every case it sends one GET, with the consumer key
    and secret, to the token URL before anything else, sends nothing more,
    and leaves the instance as it is. *)
Theorem get_access_token_raises_iff (reply : http_reply) (self : PaymentModule) :
  (forall e,
      raised_of (get_access_token reply self) = Some e
      <-> e = AttributeError
          /\ exists status body,
               reply = Reply status (Some body)
               /\ is_http_error status = false
               /\ forall fields, body <> JObj fields)
  /\ self_of (get_access_token reply self) = self
  /\ exists t',
       trace_of (get_access_token reply self)
       = HttpGet (token_url self) (consumer_key self, consumer_secret self) :: t'
       /\ requests_of t' = [].
Proof.
  unfold get_access_token. run_M.
  destruct reply as [|status [body|]].
  - split; [|split; [reflexivity|eexists; split; reflexivity]].
    intros e. split; [discriminate|]. intros (_ & s & b & H & _). discriminate H.
  - destruct (is_http_error status) eqn:Hs.
    + split; [|split; [reflexivity|eexists; split; reflexivity]].
      intros e. split; [discriminate|].
      intros (_ & s & b & [= -> ->] & H & _). congruence.
    + assert ((exists fields, body = JObj fields)
              \/ forall fields, body <> JObj fields) as [[fields ->]|Hb].
      { destruct body; eauto; right; discriminate. }
      * cbn [get_method]. run_M.
        destruct (truthy (dict_get fields "access_token")); cbn;
          (split; [|split; [reflexivity|eexists; split; reflexivity]]);
          intros e; (split; [discriminate|]);
          intros (_ & s & b & [= -> <-] & _ & H); now destruct (H fields).
      * assert (get_method body "access_token" = raise AttributeError) as ->.
        { destruct body; try reflexivity. now destruct (Hb fields). }
        cbn. split; [|split; [reflexivity|eexists; split; reflexivity]].
        intros e. split; [intros [= <-]; eauto 10|]. now intros (-> & _).
  - split.
    + intros e. destruct (is_http_error status); (split; [discriminate|]);
        intros (_ & s & b & H & _); discriminate H.
    + destruct (is_http_error status);
        (split; [reflexivity|eexists; split; reflexivity]).
Qed.

(** ** Requests and outcomes of [initiate_payment] *)

Lemma requests_of_app (t t' : list event) :
  requests_of (t ++ t') = requests_of t ++ requests_of t'.
Proof.
  induction t as [|[m|url auth|url bearer ct payload] t IH]; cbn; congruence.
Qed.

Lemma no_post_no_push (t : list event) :
  ~ In Post (requests_of t) -> ~ push_issued t.
Proof.
  unfold push_issued.
  induction t as [|[m|url auth|url bearer ct payload] t IH]; cbn;
    [discriminate | exact IH | tauto |].
  intros H _. apply H. now left.
Qed.

Lemma only_get_no_push (t : list event) : requests_of t = [Get] -> ~ push_issued t.
Proof.
  intros H. apply no_post_no_push. rewrite H. intros [E|[]]. discriminate E.
Qed.

Lemma get_access_token_requests (reply : http_reply) (self : PaymentModule) :
  requests_of (trace_of (get_access_token reply self)) = [Get].
Proof.
  unfold get_access_token. run_M.
  destruct reply as [|status [body|]];
    [| destruct (is_http_error status) ..]; try reflexivity.
  destruct body; cbn [get_method]; run_M; try reflexivity.
  destruct (truthy (dict_get fields "access_token")); reflexivity.
Qed.

Lemma handle_payment_failure_requests (self : PaymentModule) (now : datetime) :
  requests_of (trace_of (handle_payment_failure now self)) = [].
Proof.
  unfold handle_payment_failure. run_M.
  cbn [failed_payment_attempts grace_period_end set_failed_payment_attempts].
  destruct (failed_payment_attempts self + 1 =? 1); [reflexivity|].
  destruct (grace_period_end self) as [deadline|]; [|reflexivity].
  destruct (now <? deadline); reflexivity.
Qed.

(** What the [try] block can end with. *)
Lemma stk_push_outcomes (w : world) (tok : json)
    (payload : list (string * json)) (self : PaymentModule) :
  let r := stk_push w tok payload self in
  let f := handle_payment_failure (clock_failure w) self in
  requests_of (trace_of r) = [Post]
  /\ ((exists status fields,
         stk_reply w = Reply status (Some (JObj fields))
         /\ ne_str (dict_get fields "ResponseCode") "0" = false
         /\ result_of r = Return (JObj fields) /\ self_of r = self)
      \/ (exists status fields,
            stk_reply w = Reply status (Some (JObj fields))
            /\ ne_str (dict_get fields "ResponseCode") "0" = true
            /\ self_of r = self_of f
            /\ (result_of r = Return (JObj fields) \/ result_of r = Raise TypeError))
      \/ (exists status body,
            stk_reply w = Reply status (Some body)
            /\ (forall fields, body <> JObj fields)
            /\ result_of r = Raise AttributeError /\ self_of r = self)
      \/ ((stk_reply w = Unreachable \/ exists status, stk_reply w = Reply status None)
          /\ self_of r = self_of f
          /\ (result_of r = Return JNull \/ result_of r = Raise TypeError))).
Proof.
  cbn zeta.
  pose proof (handle_payment_failure_requests self (clock_failure w)) as Hq.
  assert (forall e, result_of (handle_payment_failure (clock_failure w) self) = Raise e
                    -> e = TypeError) as Hexn.
  { intros e. unfold handle_payment_failure. run_M.
    cbn [failed_payment_attempts grace_period_end set_failed_payment_attempts].
    destruct (failed_payment_attempts self + 1 =? 1); [discriminate|].
    destruct (grace_period_end self) as [deadline|];
      [destruct (clock_failure w <? deadline); discriminate|].
    now intros [= <-]. }
  destruct (stk_reply w) as [|status [body|]] eqn:Hreply.
  - unfold stk_push. rewrite Hreply. run_M.
    destruct (handle_payment_failure (clock_failure w) self)
      as [[[[]|e] self'] t]; cbn in *; rewrite ?app_nil_r, ?Hq;
      (split; [reflexivity|]); do 3 right; (split; [auto|]); split; auto.
    right. now rewrite (Hexn e eq_refl).
  - assert ((exists fields, body = JObj fields)
            \/ forall fields, body <> JObj fields) as [[fields ->]|Hb].
    { destruct body; eauto; right; discriminate. }
    + destruct (ne_str (dict_get fields "ResponseCode") "0") eqn:Hcode.
      * unfold stk_push. rewrite Hreply. cbn [get_method]. run_M.
        rewrite Hcode.
        destruct (handle_payment_failure (clock_failure w) self)
          as [[[[]|e] self'] t]; cbn in *; rewrite ?app_nil_r, ?Hq;
          (split; [reflexivity|]); right; left; exists status, fields;
          repeat split; auto.
        right. now rewrite (Hexn e eq_refl).
      * rewrite (stk_push_accepted _ _ _ _ _ _ Hreply Hcode).
        split; [reflexivity|]. left. exists status, fields. auto.
    + rewrite (stk_push_not_an_object _ _ _ _ _ _ Hreply Hb).
      split; [reflexivity|]. right; right; left. exists status, body. auto.
  - unfold stk_push. rewrite Hreply. run_M.
    destruct (handle_payment_failure (clock_failure w) self)
      as [[[[]|e] self'] t]; cbn in *; rewrite ?app_nil_r, ?Hq;
      (split; [reflexivity|]); do 3 right; (split; [eauto|]); split; auto.
    right. now rewrite (Hexn e eq_refl).
Qed.

(** The five ways a call of [initiate_payment] can go. *)
Lemma initiate_payment_outcomes (w : world) (phone name : string) (n : Z)
    (self : PaymentModule) :
  let r := initiate_payment w phone name n self in
  (exists m, r = (Return JNull, self, [Print m])
             /\ (re_match phone_pattern 0 phone = false
                 \/ result_of (validate_branch_limit name n self) = Return false))
  \/ (r = (Raise (KeyError name), self, [])
      /\ re_match phone_pattern 0 phone = true
      /\ SUBSCRIPTION_TIERS !! name = None)
  \/ (exists t0, r = (Return JNull, self, t0 ++ [Print MsgTokenAborted])
                 /\ requests_of t0 = [Get])
  \/ (exists t0, r = (Raise AttributeError, self, t0) /\ requests_of t0 = [Get])
  \/ (exists d tok t0,
        passes_validation phone name d n
        /\ get_access_token (token_reply w) self = (Return tok, self, t0)
        /\ truthy tok = true
        /\ requests_of t0 = [Get]
        /\ ~ push_issued t0
        /\ r = (let p := stk_push w tok (payload_of self w phone name d n) self in
                (result_of p, self_of p, t0 ++ trace_of p))).
Proof.
  cbn zeta.
  destruct (re_match phone_pattern 0 phone) eqn:Hphone.
  2: { left. rewrite (initiate_payment_bad_phone _ _ _ _ _ Hphone). eauto. }
  destruct (SUBSCRIPTION_TIERS !! name) as [d|] eqn:Hkey.
  2: { rewrite (initiate_payment_unknown_tier _ _ _ _ _ Hphone Hkey).
       rewrite (validate_branch_limit_unknown _ _ _ Hkey).
       destruct (MAX_BRANCHES_PER_ACTION <? n); [left; eauto|right; left; auto]. }
  assert (passes_validation phone name d n
          \/ exists m, validate_branch_limit name n self
                       = (Return false, self, [Print m])) as [Hv|[m Hm]].
  { rewrite (validate_branch_limit_known _ _ _ _ Hkey).
    destruct (Z.ltb_spec MAX_BRANCHES_PER_ACTION n) as [?|?]; [right; eauto|].
    destruct (limit d) as [l|] eqn:El.
    - destruct (Z.ltb_spec l n) as [?|?]; [right; eauto|].
      left. split; [|split; [|split]]; auto.
      intros l' Hl'. assert (l' = l) by congruence. lia.
    - left. split; [|split; [|split]]; auto.
      intros l' Hl'. congruence. }
  2: { left. rewrite (initiate_payment_over_limit _ _ _ _ _ _ Hphone Hm).
       rewrite Hm. eauto. }
  destruct (get_access_token_frame (token_reply w) self) as (rt & t0 & Htok & Hno).
  pose proof (get_access_token_requests (token_reply w) self) as Hq.
  rewrite Htok in Hq. cbn in Hq.
  destruct rt as [tok|e].
  - destruct (truthy tok) eqn:Htruthy.
    + do 4 right. exists d, tok, t0.
      rewrite (initiate_payment_pushes _ _ _ _ _ _ _ _ Hv Htok Htruthy). auto 10.
    + right; right; left. exists t0.
      rewrite (initiate_payment_no_token _ _ _ _ _ _ _ _ Hv Htok Htruthy). auto.
  - do 3 right; left. exists t0.
    rewrite (initiate_payment_token_raises _ _ _ _ _ _ _ _ Hv Htok).
    pose proof (get_access_token_raises (token_reply w) self e) as He.
    rewrite Htok in He. rewrite (He eq_refl). auto.
Qed.

(** A failed validation ends the call at once: [None] is returned, one
    diagnostic is printed, no request is sent and the instance is untouched.
    The phone number is tested first, so with an invalid number even an
    unknown tier name does not raise. *)
Theorem initiate_payment_validation_failure (w : world) (phone name : string)
    (n : Z) (self : PaymentModule) :
  re_match phone_pattern 0 phone = false
  \/ (re_match phone_pattern 0 phone = true
      /\ result_of (validate_branch_limit name n self) = Return false) ->
  exists m,
    initiate_payment w phone name n self = (Return JNull, self, [Print m]).
Proof.
  intros [Hphone|[Hphone Hfalse]].
  - rewrite (initiate_payment_bad_phone _ _ _ _ _ Hphone). eauto.
  - destruct (SUBSCRIPTION_TIERS !! name) as [d|] eqn:Hkey.
    + rewrite (validate_branch_limit_known _ _ _ _ Hkey) in Hfalse.
      assert (exists m, validate_branch_limit name n self
                        = (Return false, self, [Print m])) as [m Hm].
      { rewrite (validate_branch_limit_known _ _ _ _ Hkey).
        destruct (MAX_BRANCHES_PER_ACTION <? n); [eauto|].
        destruct (limit d) as [l|]; [destruct (l <? n)|];
          [eauto|discriminate Hfalse..]. }
      rewrite (initiate_payment_over_limit _ _ _ _ _ _ Hphone Hm). eauto.
    + rewrite (validate_branch_limit_unknown _ _ _ Hkey) in Hfalse.
      rewrite (initiate_payment_unknown_tier _ _ _ _ _ Hphone Hkey).
      destruct (MAX_BRANCHES_PER_ACTION <? n); [eauto|discriminate Hfalse].
Qed.

Lemma initiate_payment_validation_failure_witness :
  let w := {| token_reply := Unreachable; clock_stamp := "20240101120000";
              stk_reply := Unreachable; clock_failure := 0 |} in
  let self := init "key" "secret" "600977" "passkey" "http://cb" in
  exists m,
    initiate_payment w "0712345678" "gold" 3 self = (Return JNull, self, [Print m]).
Proof.
  cbn zeta. apply initiate_payment_validation_failure. left. reflexivity.
Defined.

(** In one call [initiate_payment] sends nothing, or the token request
    alone, or the token request and then the push request; the push request
    is never sent without the token request before it, nor twice. *)
Theorem initiate_payment_request_order (w : world) (phone name : string) (n : Z)
    (self : PaymentModule) :
  let q := requests_of (trace_of (initiate_payment w phone name n self)) in
  q = [] \/ q = [Get] \/ q = [Get; Post].
Proof.
  cbn zeta.
  destruct (initiate_payment_outcomes w phone name n self)
    as [(m & -> & _)|[(-> & _)|[(t0 & -> & Hq)|[(t0 & -> & Hq)
        |(d & tok & t0 & _ & _ & _ & Hq & _ & ->)]]]]; cbn.
  - auto.
  - auto.
  - rewrite requests_of_app, Hq. auto.
  - rewrite Hq. auto.
  - rewrite requests_of_app, Hq.
    destruct (stk_push_outcomes w tok (payload_of self w phone name d n) self)
      as [-> _]. auto.
Qed.

(** [initiate_payment] returns something other than [None] only when the
    push request was sent and the gateway answered with a JSON object, and
    what it returns is that object. *)
Theorem initiate_payment_returns_gateway_object (w : world) (phone name : string)
    (n : Z) (self : PaymentModule) (v : json) :
  result_of (initiate_payment w phone name n self) = Return v ->
  v <> JNull ->
  push_issued (trace_of (initiate_payment w phone name n self))
  /\ exists status fields,
       stk_reply w = Reply status (Some (JObj fields)) /\ v = JObj fields.
Proof.
  intros Hr Hv.
  destruct (initiate_payment_outcomes w phone name n self)
    as [(m & E & _)|[(E & _)|[(t0 & E & Hq)|[(t0 & E & Hq)
        |(d & tok & t0 & _ & _ & _ & Hq & _ & E)]]]];
    rewrite E in Hr |- *; cbn in Hr;
    try (injection Hr as <-; now destruct Hv); try discriminate Hr.
  cbn zeta. unfold trace_of at 1. cbn [snd].
  destruct (stk_push_cases w tok (payload_of self w phone name d n) self)
    as [Hpush _].
  split; [apply push_issued_app; now right|].
  destruct (stk_push_outcomes w tok (payload_of self w phone name d n) self)
    as [_ [(st & f & Hre & _ & Hres & _)|[(st & f & Hre & _ & _ & Hres)
       |[(st & b & _ & _ & Hres & _)|(_ & _ & Hres)]]]];
    unfold result_of in Hr, Hres; cbn [fst] in Hr.
  - exists st, f. split; [exact Hre|]. congruence.
  - exists st, f. split; [exact Hre|]. destruct Hres; congruence.
  - congruence.
  - destruct Hres as [Hres|Hres]; [|congruence].
    rewrite Hres in Hr. injection Hr as <-. now destruct Hv.
Qed.

Lemma initiate_payment_returns_gateway_object_witness :
  let w := {| token_reply := Reply 200 (Some (JObj [("access_token", JStr "t0k3n")]));
              clock_stamp := "20240101120000";
              stk_reply := Reply 200 (Some (JObj [("ResponseCode", JStr "1")]));
              clock_failure := 1000 |} in
  let self := init "key" "secret" "600977" "passkey" "http://cb" in
  push_issued (trace_of (initiate_payment w "254712345678" "pro" 5 self))
  /\ exists status fields,
       stk_reply w = Reply status (Some (JObj fields))
       /\ JObj [("ResponseCode", JStr "1")] = JObj fields.
Proof.
  cbn zeta.
  apply (initiate_payment_returns_gateway_object _ _ _ _ _
           (JObj [("ResponseCode", JStr "1")]));
    [vm_compute; reflexivity|discriminate].
Defined.

(** Every payload [initiate_payment] sends is consistent: the password
    decodes from base64 to shortcode, passkey and the very timestamp of the
    [Timestamp] field; [PartyA] and [PhoneNumber] are the phone number given;
    [BusinessShortCode] and [PartyB] are the shortcode; the account
    reference is [Vendor_] and the phone number. *)
Theorem pushed_payload_consistent (w : world) (phone name : string) (n : Z)
    (self : PaymentModule) (payload : list (string * json)) :
  In payload (pushed_payloads (trace_of (initiate_payment w phone name n self))) ->
  (exists password,
      dict_get payload "Password" = JStr password
      /\ dict_get payload "Timestamp" = JStr (clock_stamp w)
      /\ (encode_ascii password ≫= base64.b64decode)
         = Some (encode (shortcode self +:+ passkey self +:+ clock_stamp w)))
  /\ dict_get payload "PartyA" = JStr phone
  /\ dict_get payload "PhoneNumber" = JStr phone
  /\ dict_get payload "BusinessShortCode" = JStr (shortcode self)
  /\ dict_get payload "PartyB" = JStr (shortcode self)
  /\ dict_get payload "AccountReference" = JStr ("Vendor_" +:+ phone)
  /\ dict_get payload "CallBackURL" = JStr (callback_url self)
  /\ dict_get payload "TransactionType" = JStr "CustomerBuyGoodsOnline".
Proof.
  intros Hin.
  destruct (initiate_payment_outcomes w phone name n self)
    as [(m & E & _)|[(E & _)|[(t0 & E & Hq)|[(t0 & E & Hq)
        |(d & tok & t0 & _ & _ & _ & Hq & Hno & E)]]]];
    rewrite E in Hin.
  - destruct Hin.
  - destruct Hin.
  - unfold trace_of in Hin. cbn [snd] in Hin.
    rewrite pushed_payloads_app, (pushed_payloads_none _ (only_get_no_push _ Hq))
      in Hin.
    destruct Hin.
  - unfold trace_of in Hin. cbn [snd] in Hin.
    rewrite (pushed_payloads_none _ (only_get_no_push _ Hq)) in Hin.
    destruct Hin.
  - cbn zeta in Hin. unfold trace_of at 1 in Hin. cbn [snd] in Hin.
    destruct (stk_push_trace w tok (payload_of self w phone name d n) self)
      as (t' & Et & Hno').
    rewrite pushed_payloads_app, Et, (pushed_payloads_none _ Hno) in Hin.
    cbn in Hin. rewrite (pushed_payloads_none _ Hno') in Hin.
    destruct Hin as [<-|[]].
    split; [|repeat split].
    exists (password_of self (clock_stamp w)).
    split; [reflexivity|]. split; [reflexivity|].
    unfold password_of.
    rewrite (encode_ascii_bytes _ (b64encode_is_ascii _)). cbn [mbind option_bind].
    apply b64decode_b64encode.
Qed.

Lemma pushed_payload_consistent_witness :
  let w := {| token_reply := Reply 200 (Some (JObj [("access_token", JStr "t0k3n")]));
              clock_stamp := "20240101120000";
              stk_reply := Unreachable;
              clock_failure := 1000 |} in
  let self := init "key" "secret" "600977" "passkey" "http://cb" in
  let payload := payload_of self w "254712345678" "pro"
                   {| price := 300; limit := Some 100 |} 5 in
  (exists password,
      dict_get payload "Password" = JStr password
      /\ dict_get payload "Timestamp" = JStr (clock_stamp w)
      /\ (encode_ascii password ≫= base64.b64decode)
         = Some (encode (shortcode self +:+ passkey self +:+ clock_stamp w)))
  /\ dict_get payload "PartyA" = JStr "254712345678"
  /\ dict_get payload "PhoneNumber" = JStr "254712345678"
  /\ dict_get payload "BusinessShortCode" = JStr (shortcode self)
  /\ dict_get payload "PartyB" = JStr (shortcode self)
  /\ dict_get payload "AccountReference" = JStr ("Vendor_" +:+ "254712345678")
  /\ dict_get payload "CallBackURL" = JStr (callback_url self)
  /\ dict_get payload "TransactionType" = JStr "CustomerBuyGoodsOnline".
Proof.
  cbn zeta.
  apply (pushed_payload_consistent
           {| token_reply := Reply 200 (Some (JObj [("access_token", JStr "t0k3n")]));
              clock_stamp := "20240101120000";
              stk_reply := Unreachable;
              clock_failure := 1000 |} "254712345678" "pro" 5).
  vm_compute. left. reflexivity.
Defined.

(** When the gateway answers the push request with JSON that is not an
    object, [initiate_payment] raises [AttributeError]: nothing is returned,
    no failure is recorded and the instance is untouched. *)
Theorem initiate_payment_non_object_answer (w : world) (phone name : string)
    (n : Z) (self : PaymentModule) (status : Z) (body : json) :
  push_issued (trace_of (initiate_payment w phone name n self)) ->
  stk_reply w = Reply status (Some body) ->
  (forall fields, body <> JObj fields) ->
  result_of (initiate_payment w phone name n self) = Raise AttributeError
  /\ self_of (initiate_payment w phone name n self) = self.
Proof.
  intros Hpush Hreply Hbody.
  destruct (initiate_payment_outcomes w phone name n self)
    as [(m & E & _)|[(E & _)|[(t0 & E & Hq)|[(t0 & E & Hq)
        |(d & tok & t0 & _ & _ & _ & Hq & Hno & E)]]]];
    rewrite E in Hpush |- *.
  - discriminate Hpush.
  - discriminate Hpush.
  - unfold trace_of in Hpush. cbn [snd] in Hpush.
    apply push_issued_app in Hpush as [Hpush|Hpush]; [|discriminate Hpush].
    now destruct (only_get_no_push _ Hq).
  - now destruct (only_get_no_push _ Hq).
  - cbn zeta. rewrite (stk_push_not_an_object _ _ _ _ _ _ Hreply Hbody).
    split; reflexivity.
Qed.

Lemma initiate_payment_non_object_answer_witness :
  let w := {| token_reply := Reply 200 (Some (JObj [("access_token", JStr "t0k3n")]));
              clock_stamp := "20240101120000";
              stk_reply := Reply 502 (Some (JArr [JStr "bad gateway"]));
              clock_failure := 1000 |} in
  let self := init "key" "secret" "600977" "passkey" "http://cb" in
  result_of (initiate_payment w "254712345678" "pro" 5 self) = Raise AttributeError
  /\ self_of (initiate_payment w "254712345678" "pro" 5 self) = self.
Proof.
  cbn zeta.
  apply (initiate_payment_non_object_answer _ _ _ _ _ 502 (JArr [JStr "bad gateway"]));
    [vm_compute; reflexivity | reflexivity | discriminate].
Defined.

(** [initiate_payment] changes the instance only in a call that sends the
    push request. *)
Theorem initiate_payment_no_push_no_change (w : world) (phone name : string)
    (n : Z) (self : PaymentModule) :
  ~ push_issued (trace_of (initiate_payment w phone name n self)) ->
  self_of (initiate_payment w phone name n self) = self.
Proof.
  intros Hno.
  destruct (initiate_payment_outcomes w phone name n self)
    as [(m & E & _)|[(E & _)|[(t0 & E & Hq)|[(t0 & E & Hq)
        |(d & tok & t0 & _ & _ & _ & Hq & _ & E)]]]];
    rewrite E in Hno |- *; try reflexivity.
  destruct Hno. cbn zeta. unfold trace_of at 1. cbn [snd].
  destruct (stk_push_cases w tok (payload_of self w phone name d n) self)
    as [Hpush _].
  apply push_issued_app. now right.
Qed.

Lemma initiate_payment_no_push_no_change_witness :
  let w := {| token_reply := Reply 503 None; clock_stamp := "20240101120000";
              stk_reply := Unreachable; clock_failure := 1000 |} in
  let self := init "key" "secret" "600977" "passkey" "http://cb" in
  self_of (initiate_payment w "254712345678" "pro" 5 self) = self.
Proof.
  cbn zeta. apply initiate_payment_no_push_no_change.
  vm_compute. discriminate.
Defined.

(** ** What a call can do to the instance *)

Lemma handle_payment_failure_effect (self : PaymentModule) (now : datetime) :
  let self' := self_of (handle_payment_failure now self) in
  failed_payment_attempts self' = failed_payment_attempts self + 1
  /\ consumer_key self' = consumer_key self
  /\ consumer_secret self' = consumer_secret self
  /\ shortcode self' = shortcode self
  /\ passkey self' = passkey self
  /\ callback_url self' = callback_url self
  /\ token_url self' = token_url self
  /\ stk_push_url self' = stk_push_url self.
Proof.
  cbn zeta. unfold handle_payment_failure. run_M.
  cbn [failed_payment_attempts set_failed_payment_attempts grace_period_end].
  destruct (failed_payment_attempts self + 1 =? 1); [cbn; auto 10|].
  destruct (grace_period_end self) as [deadline|]; [|cbn; auto 10].
  destruct (now <? deadline); cbn; auto 10.
Qed.

Lemma run_call_effect (c : call) (self : PaymentModule) :
  (run_call c self).2 = self
  \/ exists now, (run_call c self).2 = self_of (handle_payment_failure now self).
Proof.
  destruct c as [reply|ts|phone|name n|w phone name n|now]; cbn [run_call snd].
  - left. destruct (get_access_token_frame reply self) as (r & t & E & _).
    now rewrite E.
  - left. now rewrite generate_password_returns.
  - left. now rewrite validate_phone_number_returns.
  - left. apply validate_branch_limit_frame.
  - destruct (initiate_payment_outcomes w phone name n self)
      as [(m & E & _)|[(E & _)|[(t0 & E & Hq)|[(t0 & E & Hq)
          |(d & tok & t0 & _ & _ & _ & Hq & _ & E)]]]];
      rewrite E; auto.
    cbn zeta. unfold self_of at 1. cbn [fst snd].
    fold (self_of (stk_push w tok (payload_of self w phone name d n) self)).
    destruct (stk_push_outcomes w tok (payload_of self w phone name d n) self)
      as [_ [(st & f & _ & _ & _ & Hs)|[(st & f & _ & _ & Hs & _)
         |[(st & b & _ & _ & _ & Hs)|(_ & Hs & _)]]]]; rewrite Hs; eauto.
  - eauto.
Qed.

(** Whatever the instance and the call, a method call leaves the count of
    failed attempts as it is or raises it by exactly one, and never changes
    the credentials, the shortcode, the passkey or the three URLs. *)
Theorem call_changes_only_failure_state (c : call) (self : PaymentModule) :
  let self' := (run_call c self).2 in
  (failed_payment_attempts self' = failed_payment_attempts self
   \/ failed_payment_attempts self' = failed_payment_attempts self + 1)
  /\ consumer_key self' = consumer_key self
  /\ consumer_secret self' = consumer_secret self
  /\ shortcode self' = shortcode self
  /\ passkey self' = passkey self
  /\ callback_url self' = callback_url self
  /\ token_url self' = token_url self
  /\ stk_push_url self' = stk_push_url self.
Proof.
  cbn zeta. destruct (run_call_effect c self) as [->|[now ->]].
  - auto 10.
  - destruct (handle_payment_failure_effect self now) as (Hc & H). auto.
Qed.

Lemma failures_accumulate (times : list datetime) (self : PaymentModule)
    (deadline : datetime) :
  failed_payment_attempts self <> 0 ->
  0 <= failed_payment_attempts self ->
  grace_period_end self = Some deadline ->
  let self' := after_calls (map CallHandlePaymentFailure times) self in
  failed_payment_attempts self'
  = failed_payment_attempts self + Z.of_nat (List.length times)
  /\ grace_period_end self' = Some deadline.
Proof.
  revert self. induction times as [|now times IH]; intros self Hne Hpos Hg.
  - cbn. split; [lia|exact Hg].
  - cbn [map after_calls fold_left run_call snd].
    fold (after_calls (map CallHandlePaymentFailure times)
            (self_of (handle_payment_failure now self))).
    rewrite (handle_payment_failure_later _ _ _ Hne Hg). unfold self_of. cbn [fst snd].
    destruct (IH (set_failed_payment_attempts (failed_payment_attempts self + 1) self))
      as [Hc Hd]; cbn; try lia; auto.
    cbn zeta in Hc, Hd. cbn in Hc. rewrite Hc, Hd.
    split; [|reflexivity].
    change (List.length (now :: times)) with (S (List.length times)). lia.
Qed.

(** The first recorded failure fixes the deadline for good: on a fresh
    instance, after a failure at time [first] and any further calls, the
    deadline is [first] plus seven days; and when the further calls are
    failures too, the count is the number of failures. *)
Theorem first_failure_fixes_deadline (ck cs sc pk cb : string)
    (first : datetime) (more : list call) (times : list datetime) :
  let fresh := init ck cs sc pk cb in
  grace_period_end (after_calls (CallHandlePaymentFailure first :: more) fresh)
  = Some (first + timedelta_days GRACE_PERIOD_DAYS)
  /\ failed_payment_attempts
       (after_calls (map CallHandlePaymentFailure (first :: times)) fresh)
     = Z.of_nat (List.length (first :: times)).
Proof.
  cbn zeta. cbn [map after_calls fold_left run_call snd].
  rewrite (handle_payment_failure_first (init ck cs sc pk cb) first eq_refl).
  unfold self_of. cbn [fst snd].
  set (one := set_grace_period_end _ _).
  assert (grace_invariant one) as Hinv.
  { split; cbn; [lia|]. split; [lia|eauto]. }
  split.
  - fold (after_calls more one).
    destruct (after_calls_preserves more one Hinv) as (_ & _ & Hg).
    apply Hg. reflexivity.
  - fold (after_calls (map CallHandlePaymentFailure times) one).
    destruct (failures_accumulate times one
                (first + timedelta_days GRACE_PERIOD_DAYS)) as [Hc _];
      try reflexivity; cbn; try lia.
    cbn zeta in Hc. rewrite Hc. cbn.
    change (List.length (first :: times)) with (S (List.length times)). lia.
Qed.

(** ** The password and the timestamp *)

(** On one instance, two timestamps that differ give passwords that
    differ. *)
Theorem generate_password_injective (self : PaymentModule) (ts1 ts2 : string) :
  ts1 <> ts2 ->
  result_of (generate_password ts1 self) <> result_of (generate_password ts2 self).
Proof.
  intros Hne Heq. apply Hne.
  rewrite !generate_password_returns in Heq. cbn in Heq.
  injection Heq as Heq.
  apply (f_equal encode_ascii) in Heq.
  rewrite !(encode_ascii_bytes _ (b64encode_is_ascii _)) in Heq.
  injection Heq as Heq.
  apply (f_equal base64.b64decode) in Heq.
  rewrite !b64decode_b64encode in Heq. injection Heq as Heq.
  apply (f_equal decode) in Heq. rewrite !decode_encode in Heq.
  injection Heq as Heq.
  apply String.app_inj in Heq. now apply String.app_inj in Heq.
Qed.

Lemma generate_password_injective_witness :
  let self := init "key" "secret" "600977" "passkey" "http://cb" in
  "20240101120000" <> "20240101120001"
  /\ result_of (generate_password "20240101120000" self)
     <> result_of (generate_password "20240101120001" self).
Proof.
  cbn zeta. split; [discriminate|].
  apply generate_password_injective. discriminate.
Defined.

(** ** Answers that are JSON but not objects *)

Lemma pro_passes_validation :
  passes_validation "254712345678" "pro" {| price := 300; limit := Some 100 |} 5.
Proof.
  split; [reflexivity|]. split; [reflexivity|].
  split; [unfold MAX_BRANCHES_PER_ACTION; lia|].
  intros l [= <-]. lia.
Qed.

(** C2. A received answer to the push request is not always returned: when
    the gateway answers with JSON that is not an object, here the empty
    list, [response_data.get] raises [AttributeError], which the [except]
    clause does not catch. The push request was sent, yet the call returns
    nothing and records no failure: the instance is as before. *)
Theorem initiate_payment_list_answer_raises (self : PaymentModule) :
  let w := {| token_reply := Reply 200 (Some (JObj [("access_token", JStr "t0k3n")]));
              clock_stamp := "20240101120000";
              stk_reply := Reply 200 (Some (JArr []));
              clock_failure := 1000 |} in
  let r := initiate_payment w "254712345678" "pro" 5 self in
  push_issued (trace_of r)
  /\ result_of r = Raise AttributeError
  /\ self_of r = self
  /\ failed_payment_attempts (self_of r) = failed_payment_attempts self.
Proof.
  cbn zeta.
  set (w := {| token_reply := Reply 200 (Some (JObj [("access_token", JStr "t0k3n")]));
               clock_stamp := "20240101120000";
               stk_reply := Reply 200 (Some (JArr []));
               clock_failure := 1000 |}).
  assert (get_access_token (token_reply w) self
          = (Return (JStr "t0k3n"), self,
             [HttpGet (token_url self) (consumer_key self, consumer_secret self);
              Print (MsgAccessTokenRetrieved
                       (JObj [("access_token", JStr "t0k3n")]))])) as Htok
    by reflexivity.
  rewrite (initiate_payment_pushes w _ _ _ _ self _ _
             pro_passes_validation Htok eq_refl).
  cbn zeta.
  assert (stk_reply w = Reply 200 (Some (JArr []))) as Hreply by reflexivity.
  rewrite (stk_push_not_an_object w _ _ self _ _ Hreply) by discriminate.
  repeat split.
Qed.

(** C7. A token answer can lack the field without the call returning
    [None]: when the token endpoint answers with JSON that is not an
    object, here the empty list, [response.json().get] raises
    [AttributeError], which the [except] clause of [get_access_token] does
    not catch, and [initiate_payment] raises it too. The failure state is
    still as before and the push request is not sent. *)
Theorem initiate_payment_list_token_body_raises (self : PaymentModule) :
  let w := {| token_reply := Reply 200 (Some (JArr []));
              clock_stamp := "20240101120000";
              stk_reply := Unreachable;
              clock_failure := 1000 |} in
  let r := initiate_payment w "254712345678" "pro" 5 self in
  initiate_payment w "254712345678" "pro" 5 self
  = (Raise AttributeError, self,
     [HttpGet (token_url self) (consumer_key self, consumer_secret self)])
  /\ failed_payment_attempts (self_of r) = failed_payment_attempts self
  /\ grace_period_end (self_of r) = grace_period_end self.
Proof.
  cbn zeta.
  set (w := {| token_reply := Reply 200 (Some (JArr []));
               clock_stamp := "20240101120000";
               stk_reply := Unreachable;
               clock_failure := 1000 |}).
  assert (get_access_token (token_reply w) self
          = (Raise AttributeError, self,
             [HttpGet (token_url self) (consumer_key self, consumer_secret self)]))
    as Htok by reflexivity.
  rewrite (initiate_payment_token_raises w _ _ _ _ self _ _
             pro_passes_validation Htok).
  repeat split.
Qed.
